(** * dnsx runner: a shallow embedding of [internal/runner/runner.go]

    The enumeration pipeline of the runner is embedded as pure functions
    with explicit state passing.  Go maps become [gmap]/[gset], channels
    become the list of values sent on them, and every call that leaves the
    package (DNS client, file system, JSON codec, CIDR/ASN helpers) is a
    field of a record of externals, so that the theorems hold for every
    behaviour of those collaborators. *)

From Stdlib Require Import ZArith Ascii String List Bool Lia.
From stdpp Require Import base option list gmap sets strings fin_maps.

Local Open Scope string_scope.
Local Open Scope Z_scope.
Local Open Scope list_scope.

Set Warnings "-clear-no-such-hyp".

(** ** Go strings

    A Go string is a byte sequence; [string] (a list of [ascii]) is used
    for it.  [strings.Contains] and [strings.ReplaceAll] compare bytes and
    are defined here.  [strings.TrimSpace] and [strings.ToLower] work on
    Unicode code points (white space and letters beyond ASCII, invalid
    encodings): they are taken as given, see [GoStringsLib] below, and only
    their ASCII paths are written out, for the examples. *)
Module GoStrings.

(** [asciiSpace] of package strings: tab, newline, vertical tab, form
    feed, carriage return, space. *)
Definition asciiSpace (c : ascii) : bool :=
  let n := N_of_ascii c in
  (N.eqb n 9 || N.eqb n 10 || N.eqb n 11 || N.eqb n 12 || N.eqb n 13
   || N.eqb n 32)%bool.

Fixpoint TrimLeftASCII (s : string) : string :=
  match s with
  | String c s' => if asciiSpace c then TrimLeftASCII s' else s
  | EmptyString => EmptyString
  end.

(** Trailing white space: a suffix made of spaces only is dropped. *)
Fixpoint TrimRightASCII (s : string) : string :=
  match s with
  | EmptyString => EmptyString
  | String c s' =>
      match TrimRightASCII s' with
      | EmptyString => if asciiSpace c then EmptyString else String c EmptyString
      | t => String c t
      end
  end.

(** [strings.TrimSpace] on a string all of whose bytes are below [0x80]. *)
Definition TrimSpaceASCII (s : string) : string :=
  TrimRightASCII (TrimLeftASCII s).

Definition lower_byte (c : ascii) : ascii :=
  let n := N_of_ascii c in
  if (N.leb 65 n && N.leb n 90)%bool then ascii_of_N (n + 32) else c.

(** [strings.ToLower] on a string all of whose bytes are below [0x80]. *)
Fixpoint ToLowerASCII (s : string) : string :=
  match s with
  | EmptyString => EmptyString
  | String c s' => String (lower_byte c) (ToLowerASCII s')
  end.

Fixpoint Contains (s sub : string) : bool :=
  (String.prefix sub s
   || match s with
      | EmptyString => false
      | String _ s' => Contains s' sub
      end)%bool.

(** [strings.ReplaceAll s old new] for a non-empty [old]: scan from the
    left, and after a match skip the matched bytes ([skip] counts the
    bytes of the match still to drop). *)
Fixpoint replace_from (old new s : string) (skip : nat) : string :=
  match s with
  | EmptyString => EmptyString
  | String c s' =>
      match skip with
      | S k => replace_from old new s' k
      | O =>
          if String.prefix old s
          then new +:+ replace_from old new s' (Nat.pred (String.length old))
          else String c (replace_from old new s' O)
      end
  end.

Definition ReplaceAll (s old new : string) : string := replace_from old new s O.

End GoStrings.
Export GoStrings.

(** The two functions of package strings that work on code points.  The
    runner is embedded over any such pair, so that a theorem that does not
    name an instance holds for the functions of the Go library. *)
Class GoStringsLib := mkGoStringsLib {
  TrimSpace : string -> string;
  ToLower : string -> string
}.

(** ** Options and construction of the runner *)

(** Query types of the DNS library ([dns.TypeA], ...), as [uint16]. *)
Definition TypeA : Z := 1.
Definition TypeNS : Z := 2.
Definition TypeCNAME : Z := 5.
Definition TypeSOA : Z := 6.
Definition TypePTR : Z := 12.
Definition TypeMX : Z := 15.
Definition TypeTXT : Z := 16.
Definition TypeAAAA : Z := 28.
Definition TypeSRV : Z := 33.
Definition TypeANY : Z := 255.
Definition TypeCAA : Z := 257.

(** The resume cursor: the two persisted fields and the two running ones. *)
Record ResumeCfg := mkResumeCfg {
  Index : Z;
  ResumeFrom : string;
  current : string;
  currentIndex : Z
}.

(** The fields of [Options] that the runner reads. *)
Record Options := mkOptions {
  optA : bool; optAAAA : bool; optCNAME : bool; optPTR : bool;
  optSOA : bool; optANY : bool; optTXT : bool; optSRV : bool;
  optMX : bool; optNS : bool; optCAA : bool;
  WildcardDomain : string;
  WildcardThreshold : Z;
  Threads : Z;
  Hosts : string;
  Domains : string;
  WordList : string;
  Stream : bool;
  JSON : bool;
  Raw : bool;
  OmitRaw : bool;
  Response : bool;
  ResponseOnly : bool;
  Trace : bool;
  AXFR : bool;
  OutputCDN : bool;
  ASN : bool;
  ShowStatistics : bool;
  rcodes : gset Z;
  hasRCodes : bool;
  responseTypeFilterMap : list string;
  resumeCfg : option ResumeCfg
}.

Definition set_optA (o : Options) (b : bool) : Options :=
  mkOptions b (optAAAA o) (optCNAME o) (optPTR o) (optSOA o) (optANY o)
    (optTXT o) (optSRV o) (optMX o) (optNS o) (optCAA o)
    (WildcardDomain o) (WildcardThreshold o) (Threads o) (Hosts o)
    (Domains o) (WordList o) (Stream o) (JSON o) (Raw o) (OmitRaw o)
    (Response o) (ResponseOnly o) (Trace o) (AXFR o) (OutputCDN o) (ASN o)
    (ShowStatistics o) (rcodes o) (hasRCodes o) (responseTypeFilterMap o)
    (resumeCfg o).

Definition set_resumeCfg (o : Options) (c : option ResumeCfg) : Options :=
  mkOptions (optA o) (optAAAA o) (optCNAME o) (optPTR o) (optSOA o) (optANY o)
    (optTXT o) (optSRV o) (optMX o) (optNS o) (optCAA o)
    (WildcardDomain o) (WildcardThreshold o) (Threads o) (Hosts o)
    (Domains o) (WordList o) (Stream o) (JSON o) (Raw o) (OmitRaw o)
    (Response o) (ResponseOnly o) (Trace o) (AXFR o) (OutputCDN o) (ASN o)
    (ShowStatistics o) (rcodes o) (hasRCodes o) (responseTypeFilterMap o) c.

(** [append] guarded by a switch. *)
Definition append_if (b : bool) (t : Z) (qs : list Z) : list Z :=
  if b then qs ++ [t] else qs.

(** The chain of [if options.X { questionTypes = append(...) }] in [New]. *)
Definition requestedTypes (o : Options) : list Z :=
  let q := [] in
  let q := append_if (optA o) TypeA q in
  let q := append_if (optAAAA o) TypeAAAA q in
  let q := append_if (optCNAME o) TypeCNAME q in
  let q := append_if (optPTR o) TypePTR q in
  let q := append_if (optSOA o) TypeSOA q in
  let q := append_if (optANY o) TypeANY q in
  let q := append_if (optTXT o) TypeTXT q in
  let q := append_if (optSRV o) TypeSRV q in
  let q := append_if (optMX o) TypeMX q in
  let q := append_if (optNS o) TypeNS q in
  let q := append_if (optCAA o) TypeCAA q in
  q.

Definition nonempty (s : string) : bool := negb (String.eqb s "").

(** The two separators of the package. *)
Definition Comma : string := ",".
Definition NewLine : string := String (ascii_of_N 10) EmptyString.

(** What [New] decides about the query: the options (with [A] possibly
    switched on) and [dnsxOptions.QuestionTypes]. *)
Definition New (o : Options) : Options * list Z :=
  let questionTypes := requestedTypes o in
  if (Nat.eqb (List.length questionTypes) 0 || nonempty (WildcardDomain o))%bool
  then (set_optA o true, questionTypes ++ [TypeA])
  else (o, questionTypes).

Definition QuestionTypes (o : Options) : list Z := snd (New o).

(** No record-type switch is enabled. *)
Definition no_switch (o : Options) : bool :=
  negb (optA o || optAAAA o || optCNAME o || optPTR o || optSOA o || optANY o
        || optTXT o || optSRV o || optMX o || optNS o || optCAA o).

(** No switch other than [A] is enabled. *)
Definition no_other_switch (o : Options) : bool :=
  negb (optAAAA o || optCNAME o || optPTR o || optSOA o || optANY o
        || optTXT o || optSRV o || optMX o || optNS o || optCAA o).

Definition defaultOptions : Options :=
  mkOptions false false false false false false false false false false false
    "" 5 100 "" "" "" false false false false false false false false false
    false false ∅ false [] None.

(** ** DNS data

    The records of the DNS client library, reduced to the fields the runner
    reads or writes. *)

Record SOA := mkSOA { soaName : string; soaNS : string; soaMbox : string }.

(** One hop of a trace chain: its raw text and the wire message still
    attached to it (rendered), if any. *)
Record Hop := mkHop { hopRaw : string; hopRawResp : option string }.

Record AXFRData := mkAXFRData { axfrDNSData : list string }.

Record DNSData := mkDNSData {
  Host : string;
  TimestampIsZero : bool;
  StatusCodeRaw : Z;
  HostsFile : bool;
  dRaw : string;
  dA : list string;
  dAAAA : list string;
  dCNAME : list string;
  dMX : list string;
  dPTR : list string;
  dNS : list string;
  dTXT : list string;
  dSRV : list string;
  dCAA : list string;
  dSOA : list SOA;
  TraceData : option (list Hop);
  AXFRDataOf : option AXFRData
}.

Definition set_Raw (d : DNSData) (raw : string) : DNSData :=
  mkDNSData (Host d) (TimestampIsZero d) (StatusCodeRaw d) (HostsFile d) raw
    (dA d) (dAAAA d) (dCNAME d) (dMX d) (dPTR d) (dNS d) (dTXT d) (dSRV d)
    (dCAA d) (dSOA d) (TraceData d) (AXFRDataOf d).

Definition set_TraceData (d : DNSData) (t : option (list Hop)) : DNSData :=
  mkDNSData (Host d) (TimestampIsZero d) (StatusCodeRaw d) (HostsFile d)
    (dRaw d) (dA d) (dAAAA d) (dCNAME d) (dMX d) (dPTR d) (dNS d) (dTXT d)
    (dSRV d) (dCAA d) (dSOA d) t (AXFRDataOf d).

Definition set_AXFRData (d : DNSData) (x : option AXFRData) : DNSData :=
  mkDNSData (Host d) (TimestampIsZero d) (StatusCodeRaw d) (HostsFile d)
    (dRaw d) (dA d) (dAAAA d) (dCNAME d) (dMX d) (dPTR d) (dNS d) (dTXT d)
    (dSRV d) (dCAA d) (dSOA d) (TraceData d) x.

(** [GetSOARecords]: the name server and the mailbox of every SOA record. *)
Definition GetSOARecords (d : DNSData) : list string :=
  flat_map (fun s => [soaNS s; soaMbox s]) (dSOA d).

(** One answer of the ASN client, and the folded description the runner
    attaches to an entry. *)
Record AsnmapResponse := mkAsnmapResponse {
  asnNumber : Z; asnOrg : string; asnCountry : string
}.

Record AsnResponse := mkAsnResponse {
  AsNumber : string; AsName : string; AsCountry : string;
  AsRange : list string
}.

(** [dnsx.ResponseData] once the embedded [*DNSData] is known not to be nil. *)
Record ResponseData := mkResponseData {
  rdDNS : DNSData;
  IsCDNIP : bool;
  CDNName : string;
  rdASN : option AsnResponse
}.

(** ** The collaborators of the resolver workers

    Every call of [worker] that leaves the package.  A call that returns
    [(value, err)] and whose error is dropped by the caller is a function
    into the value ([None] or the empty list when the library returns nil).
    [jsonUnmarshal] is [json.Unmarshal] into a [DNSData], [Unmarshal] the
    library's own decoder of a stored answer, [dataJSON] its [JSON] method;
    [None] stands for a returned error. *)
Record Externals := mkExternals {
  isURL : string -> bool;
  extractDomain : string -> string;
  QueryMultiple : string -> option DNSData;
  dnsTrace : string -> option (list Hop);
  dnsAXFR : string -> option AXFRData;
  CdnCheck : string -> bool * string;
  Lookup : string -> list string;
  asnGetData : string -> option (list AsnmapResponse);
  asnGetCIDR : list AsnmapResponse -> list string;
  IsIP : string -> bool;
  fmtInt : Z -> string;
  asnString : AsnResponse -> string;
  respJSON : bool -> ResponseData -> string;
  dataJSON : DNSData -> option string;
  Magenta : string -> string;
  Green : string -> string;
  RcodeToString : Z -> option string;
  Dedupe : list string -> list string;
  Merge : list (list string) -> list string;
  jsonUnmarshal : string -> option DNSData;
  Unmarshal : string -> option DNSData;
  IsWildcard : string -> bool
}.

(** The runner after construction: the options as [New] left them, the
    question types handed to the DNS client, the Work Set and the Wildcard
    Root Set. *)
Record Runner := mkRunner {
  options : Options;
  dnsxQuestionTypes : list Z;
  hm : gmap string string;
  wildcards : gset string
}.

Definition NewRunner (o : Options) : Runner :=
  mkRunner (fst (New o)) (snd (New o)) ∅ ∅.

Definition set_hm (r : Runner) (m : gmap string string) : Runner :=
  mkRunner (options r) (dnsxQuestionTypes r) m (wildcards r).

Definition set_wildcards (r : Runner) (w : gset string) : Runner :=
  mkRunner (options r) (dnsxQuestionTypes r) (hm r) w.

Definition set_options (r : Runner) (o : Options) : Runner :=
  mkRunner o (dnsxQuestionTypes r) (hm r) (wildcards r).

(** ** Output of one record type ([outputRecordType]) *)

Section Workers.
Context `{SL : GoStringsLib}.

(** The [items interface{}] argument: the two dynamic types the type
    switch knows. *)
Inductive Items :=
| StringItems (l : list string)
| SOAItems (l : list SOA).

Definition records_of (items : Items) : list string :=
  match items with
  | StringItems l => l
  | SOAItems l => flat_map (fun s => [soaNS s; soaMbox s]) l
  end.

Definition details_of (X : Externals) (cdnName : string)
    (asn : option AsnResponse) : string :=
  let details := if nonempty cdnName then " [" +:+ cdnName +:+ "]" else "" in
  match asn with
  | Some a => details +:+ " " +:+ asnString X a
  | None => details
  end.

(** The loop over the records; the default branch sends one line and
    leaves the loop. *)
Fixpoint output_records (X : Externals) (o : Options)
    (domain queryType details : string) (records : list string) : list string :=
  match records with
  | [] => []
  | item0 :: rest =>
      let item := ToLower item0 in
      if ResponseOnly o then
        (item +:+ details) :: output_records X o domain queryType details rest
      else if Response o then
        (domain +:+ " [" +:+ Magenta X queryType +:+ "] ["
           +:+ Green X item +:+ "] " +:+ details)
          :: output_records X o domain queryType details rest
      else
        [domain +:+ details]
  end.

Definition outputRecordType (X : Externals) (o : Options) (domain : string)
    (items : Items) (queryType cdnName : string) (asn : option AsnResponse)
    : list string :=
  output_records X o domain queryType (details_of X cdnName asn)
    (records_of items).

Definition outputResponseCode (X : Externals) (domain : string)
    (responsecode : Z) : list string :=
  match RcodeToString X responsecode with
  | Some responseCodeExt => [domain +:+ " [" +:+ responseCodeExt +:+ "]"]
  | None => []
  end.

(** ** The resolver worker *)

(** The record list a filter entry selects, for the entries the switch of
    [shouldSkipRecord] knows; [None] is its [default] case. *)
Definition filter_count (t : string) (d : DNSData) : option nat :=
  if String.eqb t "a" then Some (List.length (dA d))
  else if String.eqb t "aaaa" then Some (List.length (dAAAA d))
  else if String.eqb t "cname" then Some (List.length (dCNAME d))
  else if String.eqb t "ns" then Some (List.length (dNS d))
  else if String.eqb t "txt" then Some (List.length (dTXT d))
  else if String.eqb t "mx" then Some (List.length (dMX d))
  else if String.eqb t "soa" then Some (List.length (dSOA d))
  else if String.eqb t "srv" then Some (List.length (dSRV d))
  else if String.eqb t "ptr" then Some (List.length (dPTR d))
  else if String.eqb t "caa" then Some (List.length (dCAA d))
  else None.

Fixpoint shouldSkipRecord (filter : list string) (d : DNSData) : bool :=
  match filter with
  | [] => false
  | et :: rest =>
      match filter_count (ToLower (TrimSpace et)) d with
      | Some n => if Nat.ltb 0 n then true else shouldSkipRecord rest d
      | None => false
      end
  end.

(** Where one pass of the loop body of [worker] ends. *)
Inductive Outcome :=
| NilResponse
| NoHostOrTimestamp
| RcodeRejected
| AxfrEmpty
| Stored (m : gmap string string)
| StoreFailed
| Filtered
| Emitted (lines : list string).

(** The response-code gate: true when the entry is dropped. *)
Definition rcode_rejected (o : Options) (d : DNSData) : bool :=
  if negb (HostsFile d) then
    if Nat.ltb 0 (size (rcodes o)) then
      negb (bool_decide (StatusCodeRaw d ∈ rcodes o))
    else false
  else false.

(** The trace stage: the raw text of the chain is appended to the entry
    and every hop loses its wire message. *)
Definition trace_hop (o : Options) (acc : string * list Hop) (data : Hop)
    : string * list Hop :=
  let '(raw, hops) := acc in
  match hopRawResp data with
  | Some rawRespString =>
      if Raw o
      then (raw +:+ rawRespString +:+ NewLine,
            hops ++ [mkHop rawRespString None])
      else (raw, hops ++ [mkHop (hopRaw data) None])
  | None => (raw, hops ++ [mkHop (hopRaw data) None])
  end.

Definition trace_stage (X : Externals) (o : Options) (domain : string)
    (d : DNSData) : DNSData :=
  if Trace o then
    match dnsTrace X domain with
    | Some chain =>
        let '(raw, hops) := fold_left (trace_hop o) chain (dRaw d, []) in
        set_TraceData (set_Raw d raw) (Some hops)
    | None => set_TraceData d None
    end
  else d.

(** The zone-transfer stage; [None] is the [continue] of the loop. *)
Definition axfr_stage (X : Externals) (r : Runner) (domain : string)
    (d : DNSData) : option DNSData :=
  let o := options r in
  if AXFR o then
    let axfrData := dnsAXFR X domain in
    let '(d, hasAxfrData) :=
      match axfrData with
      | Some x => (set_AXFRData d (Some x), Nat.ltb 0 (List.length (axfrDNSData x)))
      | None => (d, false)
      end in
    if (Nat.eqb (List.length (dnsxQuestionTypes r)) 1 && negb hasAxfrData
        && negb (JSON o))%bool
    then None
    else Some d
  else Some d.

Definition cdn_stage (X : Externals) (o : Options) (domain : string)
    (rd : ResponseData) : ResponseData :=
  if OutputCDN o then
    let '(isCdn, name) := CdnCheck X domain in
    mkResponseData (rdDNS rd) isCdn name (rdASN rd)
  else rd.

Definition asn_results (X : Externals) (ips : list string) : list AsnmapResponse :=
  flat_map (fun ip => match asnGetData X ip with
                      | Some data => data
                      | None => []
                      end) ips.

Definition asn_stage (X : Externals) (o : Options) (domain : string)
    (rd : ResponseData) : ResponseData :=
  if ASN o then
    let ips := match dA (rdDNS rd) with
               | [] => Lookup X domain
               | ips => ips
               end in
    let results := asn_results X ips in
    let results :=
      if IsIP X domain
      then results ++ match asnGetData X domain with
                      | Some data => data
                      | None => []
                      end
      else results in
    match results with
    | first :: _ =>
        mkResponseData (rdDNS rd) (IsCDNIP rd) (CDNName rd)
          (Some (mkAsnResponse ("AS" +:+ fmtInt X (asnNumber first))
                   (asnOrg first) (asnCountry first) (asnGetCIDR X results)))
    | [] => rd
    end
  else rd.

Definition storeDNSData (X : Externals) (r : Runner) (d : DNSData)
    : option (gmap string string) :=
  match dataJSON X d with
  | Some data => Some (<[Host d := data]> (hm r))
  | None => None
  end.

(** A guarded call in the chain of [if r.options.X { ... }]. *)
Definition when (b : bool) (lines : list string) : list string :=
  if b then lines else [].

(** The last part of the loop body: store, suppress or print. *)
Definition dispatch (X : Externals) (r : Runner) (domain : string)
    (rd : ResponseData) : Outcome :=
  let o := options r in
  let d := rdDNS rd in
  let out items queryType :=
    outputRecordType X o domain items queryType (CDNName rd) (rdASN rd) in
  let soa := StringItems (Dedupe X (GetSOARecords d)) in
  if nonempty (WildcardDomain o) then
    match storeDNSData X r d with
    | Some m => Stored m
    | None => StoreFailed
    end
  else if (Nat.ltb 0 (List.length (responseTypeFilterMap o))
           && shouldSkipRecord (responseTypeFilterMap o) d)%bool then Filtered
  else if JSON o then Emitted [respJSON X (OmitRaw o) rd]
  else if Raw o then Emitted [dRaw d]
  else if Nat.ltb 0 (List.length (responseTypeFilterMap o)) then
    Emitted (out (StringItems (dA d)) "A"
             ++ out (StringItems (dAAAA d)) "AAAA"
             ++ out (StringItems (dCNAME d)) "CNAME"
             ++ out (StringItems (dMX d)) "MX"
             ++ out (StringItems (dNS d)) "NS"
             ++ out soa "SOA"
             ++ out (StringItems (dTXT d)) "TXT"
             ++ out (StringItems (dSRV d)) "SRV"
             ++ out (StringItems (dCAA d)) "CAA"
             ++ out (StringItems (dPTR d)) "PTR")
  else if hasRCodes o then
    Emitted (outputResponseCode X domain (StatusCodeRaw d))
  else
    let allParsedRecords :=
      Merge X [dA d; dAAAA d; dCNAME d; dMX d; dPTR d;
               Dedupe X (GetSOARecords d); dNS d; dTXT d; dSRV d; dCAA d] in
    Emitted (when (optA o) (out (StringItems (dA d)) "A")
             ++ when (optAAAA o) (out (StringItems (dAAAA d)) "AAAA")
             ++ when (optCNAME o) (out (StringItems (dCNAME d)) "CNAME")
             ++ when (optPTR o) (out (StringItems (dPTR d)) "PTR")
             ++ when (optMX o) (out (StringItems (dMX d)) "MX")
             ++ when (optNS o) (out (StringItems (dNS d)) "NS")
             ++ when (optSOA o) (out soa "SOA")
             ++ when (optANY o) (out (StringItems allParsedRecords) "ANY")
             ++ when (optTXT o) (out (StringItems (dTXT d)) "TXT")
             ++ when (optSRV o) (out (StringItems (dSRV d)) "SRV")
             ++ when (optCAA o) (out (StringItems (dCAA d)) "CAA")).

(** The stages between the response-code gate and the dispatch. *)
Definition enrich (X : Externals) (r : Runner) (domain : string)
    (d : DNSData) : option ResponseData :=
  let o := options r in
  let d := if Raw o then d else set_Raw d "" in
  let d := trace_stage X o domain d in
  match axfr_stage X r domain d with
  | None => None
  | Some d =>
      let rd := mkResponseData d false "" None in
      let rd := cdn_stage X o domain rd in
      Some (asn_stage X o domain rd)
  end.

(** The name that is resolved: a URL is reduced to its host. *)
Definition target (X : Externals) (domain : string) : string :=
  if isURL X domain then extractDomain X domain else domain.

(** The body of the loop of [worker] for one value read from the worker
    channel. *)
Definition worker_body (X : Externals) (r : Runner) (domain0 : string)
    : Outcome :=
  let domain := target X domain0 in
  match QueryMultiple X domain with
  | None => NilResponse
  | Some d =>
      if (String.eqb (Host d) "" || TimestampIsZero d)%bool
      then NoHostOrTimestamp
      else if rcode_rejected (options r) d then RcodeRejected
      else
        match enrich X r domain d with
        | None => AxfrEmpty
        | Some rd => dispatch X r domain rd
        end
  end.

(** One worker draining the channel: the Work Set after it and the lines
    it sent to the output channel. *)
Definition worker_step (X : Externals) (st : Runner * list string)
    (domain : string) : Runner * list string :=
  let '(r, out) := st in
  match worker_body X r domain with
  | Stored m => (set_hm r m, out)
  | Emitted lines => (r, out ++ lines)
  | _ => (r, out)
  end.

Definition worker (X : Externals) (r : Runner) (workerchan : list string)
    : Runner * list string :=
  fold_left (worker_step X) workerchan (r, []).

End Workers.

(** ** The Work Set scan and the input worker *)

(** [hm.Scan]: every entry once, in an order that depends on the map only. *)
Definition Scan (m : gmap string string) : list (string * string) :=
  map_to_list m.

(** Go's [int] is 64 bits wide here; [currentIndex++] wraps. *)
Definition wrap_int (z : Z) : Z := (z + 2 ^ 63) mod 2 ^ 64 - 2 ^ 63.

(** What the scan callback of [InputWorker] touches: the resume cursor, the
    request counter and the worker channel. *)
Record InputState := mkInputState {
  inResume : option ResumeCfg;
  requests : Z;
  workerchan : list string
}.

Definition InputWorker_item (r : Runner) (st : InputState) (kv : string * string)
    : InputState :=
  let requests' :=
    if ShowStatistics (options r)
    then requests st + Z.of_nat (List.length (dnsxQuestionTypes r))
    else requests st in
  let item := fst kv in
  match inResume st with
  | Some c =>
      let c' := mkResumeCfg (Index c) (ResumeFrom c) item
                  (wrap_int (currentIndex c + 1)) in
      if currentIndex c' <=? Index c'
      then mkInputState (Some c') requests' (workerchan st)
      else mkInputState (Some c') requests' (workerchan st ++ [item])
  | None => mkInputState None requests' (workerchan st ++ [item])
  end.

(** The scan over a given sequence of entries. *)
Definition InputWorker_scan (r : Runner) (entries : list (string * string))
    (st : InputState) : InputState :=
  fold_left (InputWorker_item r) entries st.

Definition InputWorker (r : Runner) : InputState :=
  InputWorker_scan r (Scan (hm r))
    (mkInputState (resumeCfg (options r)) 0 []).

(** ** Input sources *)

(** The operating system and the helpers of the package and of its
    libraries that the input side calls.  [ReadFile] and the two address
    streams return [None] for an error. *)
Record OS := mkOS {
  FileExists : string -> bool;
  HasStdin : bool;
  stdinLines : list string;
  ReadFile : string -> option (list string);
  ReadFileWithReader : string -> option (list string);
  GetTempFileName : option string;
  copyStdin : bool;
  argumentHasStdin : string -> bool;
  IsCIDR : string -> bool;
  IsASN : string -> bool;
  IPAddressesAsStream : string -> option (list string);
  GetIPAddressesAsStream : string -> option (list string)
}.

(** The file system after [path] has been written with [lines]. *)
Definition with_file (os : OS) (path : string) (lines : list string) : OS :=
  mkOS (fun p => if String.eqb p path then true else FileExists os p)
    (HasStdin os) (stdinLines os)
    (fun p => if String.eqb p path then Some lines else ReadFile os p)
    (ReadFileWithReader os) (GetTempFileName os) (copyStdin os)
    (argumentHasStdin os) (IsCIDR os) (IsASN os) (IPAddressesAsStream os)
    (GetIPAddressesAsStream os).

Inductive Error :=
| ErrInputNotProvided   (* "hosts file or stdin not provided" *)
| ErrEmptyArgument      (* "empty argument" *)
| ErrIO.                (* an error handed up from a library *)

Inductive result (A : Type) :=
| Ok (a : A)
| Err (e : Error).
Arguments Ok {A} a.
Arguments Err {A} e.

#[global] Instance result_bind : MBind result :=
  fun A B f x =>
    match x with
    | Ok a => f a
    | Err e => Err e
    end.

Definition of_option {A : Type} (x : option A) : result A :=
  match x with
  | Some a => Ok a
  | None => Err ErrIO
  end.

(** What happens when the stream input worker runs. *)
Inductive StreamRun :=
| NilScannerPanic
| Streamed (workerchan : list string).

Section Input.
Context `{SL : GoStringsLib}.

Definition stream_item (os : OS) (line : string) : list string :=
  let item := TrimSpace line in
  if IsCIDR os item then
    match IPAddressesAsStream os item with
    | Some hosts => hosts
    | None => []
    end
  else if IsASN os item then
    match GetIPAddressesAsStream os item with
    | Some hosts => hosts
    | None => []
    end
  else [item].

(** [InputWorkerStream]: [sc] stays nil when neither branch assigns it, and
    [sc.Scan()] on the nil scanner is a nil pointer dereference. *)
Definition InputWorkerStream (os : OS) (r : Runner) : StreamRun :=
  let sc : option (list string) :=
    if FileExists os (Hosts (options r)) then
      Some match ReadFile os (Hosts (options r)) with
           | Some lines => lines
           | None => []
           end
    else if HasStdin os then Some (stdinLines os)
    else None in
  match sc with
  | None => NilScannerPanic
  | Some lines => Streamed (flat_map (stream_item os) lines)
  end.

(** [preProcessArgument]: a file, standard input, or an inline list. *)
Definition preProcessArgument (os : OS) (tmpStdinFile arg : string)
    : result (list string) :=
  if FileExists os arg then of_option (ReadFile os arg)
  else if argumentHasStdin os arg then of_option (ReadFile os tmpStdinFile)
  else if nonempty arg then
    of_option (ReadFileWithReader os (ReplaceAll arg Comma NewLine))
  else Err ErrEmptyArgument.

Definition normalize (data : string) : string := TrimSpace data.

(** [addHostsToHMapFromList] and [addHostsToHMapFromChan]: insert if
    absent, counting the insertions. *)
Definition addHost (acc : gmap string string * Z) (host : string)
    : gmap string string * Z :=
  let '(m, numHosts) := acc in
  match m !! host with
  | Some _ => (m, numHosts)
  | None => (<[host := ""]> m, numHosts + 1)
  end.

Definition addHostsToHMapFromList (m : gmap string string) (hosts : list string)
    : gmap string string * Z :=
  fold_left addHost hosts (m, 0).

Definition addHostsToHMapFromChan (m : gmap string string) (hosts : list string)
    : gmap string string * Z :=
  fold_left addHost hosts (m, 0).

(** The body of the loop over the input lines. *)
Definition expand_item (os : OS) (o : Options) (tmpStdinFile : string)
    (acc : gmap string string * Z) (line : string)
    : result (gmap string string * Z) :=
  let '(m, numHosts) := acc in
  let item := normalize line in
  if Contains item "FUZZ" then
    fuzz ← preProcessArgument os tmpStdinFile (WordList o);
    let hosts := map (fun w => ReplaceAll item "FUZZ" w) fuzz in
    let '(m', n) := addHostsToHMapFromList m hosts in
    Ok (m', numHosts + n)
  else if nonempty (WordList o) then
    prefixes ← preProcessArgument os tmpStdinFile (WordList o);
    let hosts := map (fun prefix => TrimSpace prefix +:+ "." +:+ item) prefixes in
    let '(m', n) := addHostsToHMapFromList m hosts in
    Ok (m', numHosts + n)
  else if IsCIDR os item then
    hostC ← of_option (IPAddressesAsStream os item);
    let '(m', n) := addHostsToHMapFromChan m hostC in
    Ok (m', numHosts + n)
  else if IsASN os item then
    hostC ← of_option (GetIPAddressesAsStream os item);
    let '(m', n) := addHostsToHMapFromChan m hostC in
    Ok (m', numHosts + n)
  else
    let '(m', n) := addHostsToHMapFromList m [item] in
    Ok (m', numHosts + n).

Fixpoint expand_items (os : OS) (o : Options) (tmpStdinFile : string)
    (acc : gmap string string * Z) (lines : list string)
    : result (gmap string string * Z) :=
  match lines with
  | [] => Ok acc
  | line :: rest =>
      acc2 ← expand_item os o tmpStdinFile acc line;
      expand_items os o tmpStdinFile acc2 rest
  end.

(** Standard input copied to a temporary file: the file system afterwards
    and the name of the file (empty when there is no standard input). *)
Definition copy_stdin (os : OS) : result (OS * string) :=
  if HasStdin os then
    tmpStdinFile ← of_option (GetTempFileName os);
    if copyStdin os
    then Ok (with_file os tmpStdinFile (stdinLines os), tmpStdinFile)
    else Err ErrIO
  else Ok (os, "").

(** The lines [prepareInput] iterates over. *)
Definition input_lines (os : OS) (o : Options) (tmpStdinFile : string)
    : result (list string) :=
  if nonempty (Domains o) then preProcessArgument os tmpStdinFile (Domains o)
  else if FileExists os (Hosts o) then of_option (ReadFile os (Hosts o))
  else if (argumentHasStdin os (Hosts o) || HasStdin os)%bool then
    of_option (ReadFile os tmpStdinFile)
  else Err ErrInputNotProvided.

(** [prepareInput]: the runner with its Work Set filled, and the number of
    hosts reported to the statistics. *)
Definition prepareInput (os0 : OS) (r : Runner) : result (Runner * Z) :=
  st ← copy_stdin os0;
  let '(os, tmpStdinFile) := st in
  sc ← input_lines os (options r) tmpStdinFile;
  acc ← expand_items os (options r) tmpStdinFile (hm r, 0) sc;
  Ok (set_hm r (fst acc), snd acc).

End Input.

(** ** The wildcard pass of [run] *)

(** The order in which a [for host := range hosts] loop visits a Go map is
    not fixed by the language.  A [RangeOrder] picks it, for the map found
    under each address; the theorems ask only that it enumerates the map. *)
Definition RangeOrder := string -> gset string -> list string.

Definition enumerates (ord : RangeOrder) : Prop :=
  forall (a : string) (s : gset string), ord a s ≡ₚ elements s.

(** [ipDomain[a]], the nil map when the address is unknown. *)
Definition hosts_of (ipDomain : gmap string (gset string)) (a : string)
    : gset string :=
  default ∅ (ipDomain !! a).

(** One address of one answer in the first scan. *)
Definition ipDomain_add (k : string)
    (acc : gmap string (gset string) * list string) (a : string)
    : gmap string (gset string) * list string :=
  let '(ipDomain, listIPs) := acc in
  let '(ipDomain, listIPs) :=
    match ipDomain !! a with
    | Some _ => (ipDomain, listIPs)
    | None => (<[a := ∅]> ipDomain, listIPs ++ [a])
    end in
  (<[a := {[k]} ∪ hosts_of ipDomain a]> ipDomain, listIPs).

(** The scan callback: an entry that does not decode is ignored. *)
Definition ipDomain_scan (X : Externals)
    (acc : gmap string (gset string) * list string) (kv : string * string)
    : gmap string (gset string) * list string :=
  match jsonUnmarshal X (snd kv) with
  | None => acc
  | Some dnsdata => fold_left (ipDomain_add (fst kv)) (dA dnsdata) acc
  end.

Definition group_by_ip (X : Externals) (m : gmap string string)
    : gmap string (gset string) * list string :=
  fold_left (ipDomain_scan X) (Scan m) (∅, []).

(** The hosts sent to the wildcard workers. *)
Definition candidate_host (acc : gset string * list string) (host : string)
    : gset string * list string :=
  let '(seen, chan) := acc in
  if bool_decide (host ∈ seen) then acc else ({[host]} ∪ seen, chan ++ [host]).

Definition candidate_ip (ord : RangeOrder) (threshold : Z)
    (ipDomain : gmap string (gset string))
    (acc : gset string * list string) (a : string) : gset string * list string :=
  let hosts := hosts_of ipDomain a in
  if Z.of_nat (size hosts) >=? threshold
  then fold_left candidate_host (ord a hosts) acc
  else acc.

Definition wildcard_candidates (ord : RangeOrder) (threshold : Z)
    (ipDomain : gmap string (gset string)) (listIPs : list string)
    : list string :=
  snd (fold_left (candidate_ip ord threshold ipDomain) listIPs (∅, [])).

(** [wildcardWorker] over the hosts it receives. *)
Definition wildcardWorker (X : Externals) (w : gset string)
    (chan : list string) : gset string :=
  fold_left (fun w host => if IsWildcard X host then {[host]} ∪ w else w) chan w.

(** [lookupAndOutput]: the lines it sends to the output channel. *)
Definition lookupAndOutput (X : Externals) (r : Runner) (host : string)
    : list string :=
  if JSON (options r) then
    match hm r !! host with
    | Some data =>
        match Unmarshal X data with
        | None => []
        | Some dnsData =>
            match dataJSON X dnsData with
            | Some dnsDataJson => [dnsDataJson]
            | None => []
            end
        end
    | None => [host]
    end
  else [host].

(** The state of the final emission loop.  [emitted] records the hosts
    handed to [lookupAndOutput], in order. *)
Record EmitState := mkEmitState {
  seen : gset string;
  seenRemovedSubdomains : gset string;
  numRemovedSubdomains : Z;
  outputchan : list string;
  emitted : list string
}.

Definition emit (X : Externals) (r : Runner) (st : EmitState) (host : string)
    : EmitState :=
  if bool_decide (host ∈ seen st) then st
  else mkEmitState ({[host]} ∪ seen st) (seenRemovedSubdomains st)
         (numRemovedSubdomains st)
         (outputchan st ++ lookupAndOutput X r host)
         (emitted st ++ [host]).

(** The body of the inner loop of the final pass. *)
Definition emit_host (X : Externals) (r : Runner) (st : EmitState)
    (host : string) : EmitState :=
  if String.eqb host (WildcardDomain (options r)) then emit X r st host
  else if negb (bool_decide (host ∈ wildcards r)) then emit X r st host
  else if bool_decide (host ∈ seenRemovedSubdomains st) then st
  else mkEmitState (seen st) ({[host]} ∪ seenRemovedSubdomains st)
         (wrap_int (numRemovedSubdomains st + 1)) (outputchan st) (emitted st).

Definition emission_pass (X : Externals) (ord : RangeOrder) (r : Runner)
    (ipDomain : gmap string (gset string)) (listIPs : list string) : EmitState :=
  fold_left
    (fun st A => fold_left (emit_host X r) (ord A (hosts_of ipDomain A)) st)
    listIPs (mkEmitState ∅ ∅ 0 [] []).

(** The wildcard branch of [run], from the first scan to the final pass:
    the runner with its Wildcard Root Set and the state of the final loop. *)
Definition wildcard_pass (X : Externals) (ord1 ord2 : RangeOrder) (r : Runner)
    : Runner * EmitState :=
  let '(ipDomain, listIPs) := group_by_ip X (hm r) in
  let chan :=
    wildcard_candidates ord1 (WildcardThreshold (options r)) ipDomain listIPs in
  let r := set_wildcards r (wildcardWorker X (wildcards r) chan) in
  (r, emission_pass X ord2 r ipDomain listIPs).

(** The final pass on a runner whose Wildcard Root Set is already known. *)
Definition final_pass (X : Externals) (ord : RangeOrder) (r : Runner)
    : EmitState :=
  let '(ipDomain, listIPs) := group_by_ip X (hm r) in
  emission_pass X ord r ipDomain listIPs.

(** [run]: input, first pass with one worker, then the wildcard pass when
    a wildcard domain is configured.  The result is the output of the first
    pass and the state of the final loop. *)
Definition run `{SL : GoStringsLib} (X : Externals) (os : OS) (ord1 ord2 : RangeOrder) (r : Runner)
    : result (list string * option EmitState) :=
  st ← prepareInput os r;
  let r := fst st in
  let '(r, out) := worker X r (workerchan (InputWorker r)) in
  if nonempty (WildcardDomain (options r))
  then Ok (out, Some (snd (wildcard_pass X ord1 ord2 r)))
  else Ok (out, None).

(** The stored A records of a host: those of the decoded Work Set value,
    none when the host is absent or its value does not decode. *)
Definition stored_A (X : Externals) (r : Runner) (host : string) : list string :=
  match hm r !! host with
  | Some v =>
      match jsonUnmarshal X v with
      | Some dnsdata => dA dnsdata
      | None => []
      end
  | None => []
  end.

(** ** Notions used by the statements *)

(** The normal form under which [shouldSkipRecord] reads a filter entry. *)
Definition filter_name `{SL : GoStringsLib} (et : string) : string := ToLower (TrimSpace et).

(** The answer has at least one record of at least one configured filter
    type. *)
Definition has_filtered_record `{SL : GoStringsLib} (filter : list string) (d : DNSData) : bool :=
  existsb (fun et => match filter_count (filter_name et) d with
                     | Some n => Nat.ltb 0 n
                     | None => false
                     end) filter.

(** Default record-type output: no wildcard domain, no response-type
    filter, neither JSON nor raw nor response-code output, and neither
    [-resp] nor [-resp-only]. *)
Definition default_mode (o : Options) : bool :=
  (negb (nonempty (WildcardDomain o))
   && Nat.eqb (List.length (responseTypeFilterMap o)) 0
   && negb (JSON o) && negb (Raw o) && negb (hasRCodes o)
   && negb (Response o) && negb (ResponseOnly o))%bool.

(** The record lists of the requested question types, in the order in
    which [worker] prints them; a type that is not requested contributes
    the empty list. *)
Definition requested_records (X : Externals) (o : Options) (d : DNSData)
    : list (list string) :=
  let pick (b : bool) (l : list string) := if b then l else [] in
  [ pick (optA o) (dA d); pick (optAAAA o) (dAAAA d);
    pick (optCNAME o) (dCNAME d); pick (optPTR o) (dPTR d);
    pick (optMX o) (dMX d); pick (optNS o) (dNS d);
    pick (optSOA o) (Dedupe X (GetSOARecords d));
    pick (optANY o)
      (Merge X [dA d; dAAAA d; dCNAME d; dMX d; dPTR d;
                Dedupe X (GetSOARecords d); dNS d; dTXT d; dSRV d; dCAA d]);
    pick (optTXT o) (dTXT d); pick (optSRV o) (dSRV d);
    pick (optCAA o) (dCAA d) ].

Definition has_records (l : list string) : bool := Nat.ltb 0 (List.length l).

(** The Work Set the specification describes for plain input: the trimmed,
    lower-cased, non-empty hosts, as a set. *)
Definition spec_WorkSet `{SL : GoStringsLib} (S : list string) : gset string :=
  list_to_set (filter (fun h => nonempty h = true)
                 (map (fun line => ToLower (TrimSpace line)) S)).

(** The final pass keeps a host when it is the configured wildcard domain
    or is not in the Wildcard Root Set. *)
Definition keeps (r : Runner) (host : string) : bool :=
  (String.eqb host (WildcardDomain (options r))
   || negb (bool_decide (host ∈ wildcards r)))%bool.

(** The hosts the final loop visits, in order. *)
Definition visited (X : Externals) (ord : RangeOrder) (r : Runner) : list string :=
  flat_map (fun A => ord A (hosts_of (fst (group_by_ip X (hm r))) A))
    (snd (group_by_ip X (hm r))).

(** How many times a host was handed to the output. *)
Definition times (l : list string) (host : string) : nat :=
  count_occ String.string_dec l host.

(** The invariant of the final loop after the hosts [done] have been
    visited. *)
Definition pass_inv (X : Externals) (r : Runner) (done : list string)
    (st : EmitState) : Prop :=
  (forall h, h ∈ emitted st <-> h ∈ done /\ keeps r h = true) /\
  (forall h, h ∈ seenRemovedSubdomains st <-> h ∈ done /\ keeps r h = false) /\
  NoDup (emitted st) /\
  (forall h, h ∈ seen st <-> h ∈ emitted st) /\
  outputchan st = flat_map (lookupAndOutput X r) (emitted st) /\
  numRemovedSubdomains st
    = wrap_int (Z.of_nat (size (seenRemovedSubdomains st))).

(** The Work Set holds hosts that are queued and not resolved. *)
Definition all_queued (m : gmap string string) : Prop :=
  forall h v, m !! h = Some v -> v = "".

(** A line that is no expansion source. *)
Definition plain_line `{SL : GoStringsLib} (os : OS) (line : string) : Prop :=
  Contains (normalize line) "FUZZ" = false /\
  IsCIDR os (normalize line) = false /\
  IsASN os (normalize line) = false.

(** Every address that has a map of hosts is in the list of addresses. *)
Definition covered (acc : gmap string (gset string) * list string) : Prop :=
  forall a, is_Some (fst acc !! a) -> a ∈ snd acc.

(** The addresses a Work Set entry contributes. *)
Definition entry_A (X : Externals) (v : string) : list string :=
  match jsonUnmarshal X v with
  | Some dnsdata => dA dnsdata
  | None => []
  end.

(** The type names the switch of [shouldSkipRecord] knows. *)
Definition known_filter_types : list string :=
  ["a"; "aaaa"; "cname"; "ns"; "txt"; "mx"; "soa"; "srv"; "ptr"; "caa"].

(** The answer has at least one record of the type named [t]. *)
Definition answer_has_type (d : DNSData) (t : string) : Prop :=
  (t = "a" /\ dA d <> []) \/ (t = "aaaa" /\ dAAAA d <> []) \/
  (t = "cname" /\ dCNAME d <> []) \/ (t = "ns" /\ dNS d <> []) \/
  (t = "txt" /\ dTXT d <> []) \/ (t = "mx" /\ dMX d <> []) \/
  (t = "soa" /\ dSOA d <> []) \/ (t = "srv" /\ dSRV d <> []) \/
  (t = "ptr" /\ dPTR d <> []) \/ (t = "caa" /\ dCAA d <> []).

(** The record lists an entry that passes the response-type filter prints
    outside JSON and raw output, in print order. *)
Definition printed_with_filter (X : Externals) (d : DNSData)
    : list (list string) :=
  [dA d; dAAAA d; dCNAME d; dMX d; dNS d; Dedupe X (GetSOARecords d);
   dTXT d; dSRV d; dCAA d; dPTR d].

(** ** Fixtures: a stub resolver and a small file system *)

(** On a string whose bytes are all below [0x80] the two library functions
    take their ASCII paths.  The examples, whose strings are ASCII, are
    evaluated with them. *)
#[global] Instance asciiStrings : GoStringsLib :=
  mkGoStringsLib TrimSpaceASCII ToLowerASCII.

Definition answer (host : string) (code : Z) (a aaaa : list string) : DNSData :=
  mkDNSData host false code false "" a aaaa [] [] [] [] [] [] [] [] None None.

(** A resolver that knows four names. *)
Definition stubQuery (host : string) : option DNSData :=
  if String.eqb host "a.test" then Some (answer host 0 ["192.0.2.1"] [])
  else if String.eqb host "b.test" then Some (answer host 3 [] [])
  else if String.eqb host "dual.test"
       then Some (answer host 0 ["192.0.2.7"] ["2001:db8::7"])
  else if String.eqb host "hosts.test"
       then Some (mkDNSData host false 0 true "" ["127.0.0.1"] [] [] [] [] []
                    [] [] [] [] None None)
  else None.

(** A stored value decodes to an answer whose only A record is the value
    itself; the empty value and [{}] carry no A record. *)
Definition stubDecode (v : string) : option DNSData :=
  if String.eqb v "" then None
  else if String.eqb v "{}" then Some (answer "" 0 [] [])
  else Some (answer "" 0 [v] []).

Definition stubX : Externals :=
  mkExternals (fun _ => false) (fun s => s) stubQuery (fun _ => None)
    (fun _ => None) (fun _ => (false, "")) (fun _ => []) (fun _ => None)
    (fun _ => []) (fun _ => false) (fun _ => "0") (fun a => AsNumber a)
    (fun _ rd => Host (rdDNS rd))
    (fun d => match dA d with a :: _ => Some a | [] => Some "{}" end)
    (fun s => s) (fun s => s)
    (fun c => if c =? 0 then Some "NOERROR"
              else if c =? 3 then Some "NXDOMAIN" else None)
    (fun l => l) (fun ls => concat ls) stubDecode stubDecode (fun _ => false).

Definition stubOrder : RangeOrder := fun _ s => elements s.

(** Options with the given switches, everything else off. *)
Definition queryOptions (a aaaa axfr json : bool) (wildcard : string)
    (codes : gset Z) (filter : list string) : Options :=
  mkOptions a aaaa false false false false false false false false false
    wildcard 5 10 "hosts.txt" "" "" false json false false false false false
    axfr false false false codes false filter None.

(** AAAA requested together with wildcard filtering. *)
Definition wildcardAAAA : Options :=
  queryOptions false true false false "example.com" ∅ [].

(** A response-code allow-list holding NXDOMAIN only. *)
Definition rcodeOptions : Options :=
  mkOptions false false false false false false false false false false false
    "" 5 10 "hosts.txt" "" "" false false false false false false false
    false false false false {[3]} true [] None.

(** A resume cursor saved after one item. *)
Definition resumeCursor : ResumeCfg := mkResumeCfg 1 "a.test" "" 0.

Definition resumeRunner : Runner :=
  mkRunner
    (set_resumeCfg (queryOptions true false false false "" ∅ []) (Some resumeCursor))
    [TypeA]
    (<["a.test" := ""]> (<["b.test" := ""]> (<["dual.test" := ""]> ∅))) ∅.

(** A machine without standard input whose only file is [hosts.txt]. *)
Definition stubOS (lines : list string) : OS :=
  mkOS (fun p => String.eqb p "hosts.txt") false []
    (fun p => if String.eqb p "hosts.txt" then Some lines else None)
    (fun _ => Some []) None false (fun p => String.eqb p "-")
    (fun _ => false) (fun _ => false) (fun _ => None) (fun _ => None).

(** Two input lines: a host in mixed case between spaces, and a blank line. *)
Definition mixedLines : list string := [" Www.Example.COM "; "   "].

Definition plainRunner : Runner :=
  NewRunner (queryOptions false false false false "" ∅ []).

(** A Work Set after the first pass with a wildcard domain configured:
    [a] and [w] and the domain itself carry an A record, [b] was never
    resolved, [c] has an answer without A records; [w] and the domain are in
    the Wildcard Root Set. *)
Definition wildRunner : Runner :=
  mkRunner (fst (New (queryOptions true false false false "example.com" ∅ [])))
    (snd (New (queryOptions true false false false "example.com" ∅ [])))
    (<["a.example.com" := "192.0.2.1"]>
       (<["b.example.com" := ""]>
          (<["c.example.com" := "{}"]>
             (<["w.example.com" := "192.0.2.9"]>
                (<["example.com" := "192.0.2.9"]> ∅)))))
    {["w.example.com"; "example.com"]}.

(** A machine with neither the hosts file nor standard input. *)
Definition emptyOS : OS :=
  mkOS (fun _ => false) false [] (fun _ => None) (fun _ => Some []) None false
    (fun p => String.eqb p "-") (fun _ => false) (fun _ => false)
    (fun _ => None) (fun _ => None).

(** ** The rest of the runner *)

(** [SaveResumeConfig]: the record written to the resume file, the running
    position as [Index] and the running host as [ResumeFrom].  The two
    running fields are not part of the file.  Without a resume
    configuration the method dereferences a nil pointer ([None]). *)
Definition SaveResumeConfig (st : InputState) : option ResumeCfg :=
  match inResume st with
  | Some c => Some (mkResumeCfg (currentIndex c) (current c) "" 0)
  | None => None
  end.

(** The lines one pass of the loop body of [worker] sends. *)
Definition lines_of (out : Outcome) : list string :=
  match out with
  | Emitted lines => lines
  | _ => []
  end.

(** [runStream]: the workers fed by the stream input worker; [None] when
    the input worker panics. *)
Definition runStream `{SL : GoStringsLib} (X : Externals) (os : OS) (r : Runner)
    : option (list string) :=
  match InputWorkerStream os r with
  | NilScannerPanic => None
  | Streamed chan => Some (snd (worker X r chan))
  end.

(** A machine whose inline lists read as the two words [www] and [api]. *)
Definition wordOS : OS :=
  mkOS (fun _ => false) false [] (fun _ => None)
    (fun _ => Some ["www"; " api "]) None false (fun p => String.eqb p "-")
    (fun _ => false) (fun _ => false) (fun _ => None) (fun _ => None).

(** Options with an inline wordlist. *)
Definition wordlistOptions : Options :=
  mkOptions false false false false false false false false false false false
    "" 5 10 "hosts.txt" "" "www,api" false false false false false false false
    false false false false ∅ false [] None.

(** Options with both [-resp] and [-resp-only]. *)
Definition respOnlyOptions : Options :=
  mkOptions true false false false true false false false false false false
    "" 5 10 "hosts.txt" "" "" false false false false true true false
    false false false false ∅ false [] None.

(** Options with [-trace] and [-raw]. *)
Definition traceOptions : Options :=
  mkOptions true false false false false false false false false false false
    "" 5 10 "hosts.txt" "" "" false false true false false false true
    false false false false ∅ false [] None.

(** The stub resolver with a trace of two hops, the first of which still
    carries its wire message. *)
Definition traceX : Externals :=
  mkExternals (isURL stubX) (extractDomain stubX) (QueryMultiple stubX)
    (fun _ => Some [mkHop "" (Some "root"); mkHop "kept" None])
    (dnsAXFR stubX) (CdnCheck stubX) (Lookup stubX) (asnGetData stubX)
    (asnGetCIDR stubX) (IsIP stubX) (fmtInt stubX) (asnString stubX)
    (respJSON stubX) (dataJSON stubX) (Magenta stubX) (Green stubX)
    (RcodeToString stubX) (Dedupe stubX) (Merge stubX) (jsonUnmarshal stubX)
    (Unmarshal stubX) (IsWildcard stubX).

(** A hop that no longer carries its wire message. *)
Definition no_wire_message (h : Hop) : Prop := hopRawResp h = None.

(** * Theorems *)

(** ** Question types chosen by [New] *)

(** Membership in the list built by the chain of appends. *)
Lemma requestedTypes_spec (o : Options) (t : Z) :
  In t (requestedTypes o) <->
  (optA o = true /\ t = TypeA) \/ (optAAAA o = true /\ t = TypeAAAA) \/
  (optCNAME o = true /\ t = TypeCNAME) \/ (optPTR o = true /\ t = TypePTR) \/
  (optSOA o = true /\ t = TypeSOA) \/ (optANY o = true /\ t = TypeANY) \/
  (optTXT o = true /\ t = TypeTXT) \/ (optSRV o = true /\ t = TypeSRV) \/
  (optMX o = true /\ t = TypeMX) \/ (optNS o = true /\ t = TypeNS) \/
  (optCAA o = true /\ t = TypeCAA).
Proof.
  unfold requestedTypes.
  assert (step : forall b u q, In t (append_if b u q) <-> In t q \/ (b = true /\ t = u)).
  { intros b u q. destruct b; simpl.
    - rewrite in_app_iff. simpl. intuition congruence.
    - intuition congruence. }
  rewrite !step. simpl. tauto.
Qed.

Lemma requestedTypes_nil (o : Options) :
  requestedTypes o = [] <-> no_switch o = true.
Proof.
  split.
  - intros E. unfold no_switch.
    assert (none : forall t, ~ In t (requestedTypes o)) by (rewrite E; auto).
    setoid_rewrite requestedTypes_spec in none.
    destruct (optA o); [exfalso; eapply none; eauto |].
    destruct (optAAAA o); [exfalso; eapply none; eauto 12 |].
    destruct (optCNAME o); [exfalso; eapply none; eauto 12 |].
    destruct (optPTR o); [exfalso; eapply none; eauto 12 |].
    destruct (optSOA o); [exfalso; eapply none; eauto 12 |].
    destruct (optANY o); [exfalso; eapply none; eauto 12 |].
    destruct (optTXT o); [exfalso; eapply none; eauto 12 |].
    destruct (optSRV o); [exfalso; eapply none; eauto 12 |].
    destruct (optMX o); [exfalso; eapply none; eauto 12 |].
    destruct (optNS o); [exfalso; eapply none; eauto 14 |].
    destruct (optCAA o); [exfalso; eapply none; eauto 14 |].
    reflexivity.
  - unfold no_switch, requestedTypes. intros E.
    apply negb_true_iff in E. repeat (apply orb_false_iff in E; destruct E as [E ?]).
    repeat match goal with H : _ = false |- _ => rewrite H; clear H end.
    reflexivity.
Qed.

Lemma New_appends_A (o : Options) :
  no_switch o = true \/ WildcardDomain o <> "" ->
  QuestionTypes o = requestedTypes o ++ [TypeA].
Proof.
  intros H. unfold QuestionTypes, New.
  destruct H as [H | H].
  - apply requestedTypes_nil in H. rewrite H. reflexivity.
  - assert (nonempty (WildcardDomain o) = true) as ->.
    { unfold nonempty. apply negb_true_iff. apply String.eqb_neq. exact H. }
    rewrite orb_true_r. reflexivity.
Qed.

Lemma only_A_requested (o : Options) :
  (forall t, In t (requestedTypes o) -> t = TypeA) <-> no_other_switch o = true.
Proof.
  setoid_rewrite requestedTypes_spec. unfold no_other_switch. split.
  - intros H.
    destruct (optAAAA o); [specialize (H TypeAAAA); discriminate H; tauto |].
    destruct (optCNAME o); [specialize (H TypeCNAME); discriminate H; tauto |].
    destruct (optPTR o); [specialize (H TypePTR); discriminate H; tauto |].
    destruct (optSOA o); [specialize (H TypeSOA); discriminate H; tauto |].
    destruct (optANY o); [specialize (H TypeANY); discriminate H; tauto |].
    destruct (optTXT o); [specialize (H TypeTXT); discriminate H; tauto |].
    destruct (optSRV o); [specialize (H TypeSRV); discriminate H; tauto |].
    destruct (optMX o); [specialize (H TypeMX); discriminate H; tauto |].
    destruct (optNS o); [specialize (H TypeNS); discriminate H; tauto |].
    destruct (optCAA o); [specialize (H TypeCAA); discriminate H; tauto |].
    reflexivity.
  - intros E t. apply negb_true_iff in E.
    repeat (apply orb_false_iff in E; destruct E as [E ?]).
    intuition congruence.
Qed.

(** C3, as stated, fails: with the AAAA switch on and a wildcard domain
    configured the question types are AAAA and A, not A alone. *)
Lemma New_wildcard_keeps_switches :
  (no_switch wildcardAAAA = true \/ WildcardDomain wildcardAAAA <> "") /\
  QuestionTypes wildcardAAAA = [TypeAAAA; TypeA] /\
  list_to_set (QuestionTypes wildcardAAAA) <> ({[TypeA]} : gset Z).
Proof.
  split; [right; discriminate |]. split; [reflexivity |].
  intros E.
  assert (TypeAAAA ∈ ({[TypeA]} : gset Z)) as Hin.
  { rewrite <- E. vm_compute QuestionTypes. set_solver. }
  apply elem_of_singleton in Hin. discriminate Hin.
Qed.

(** C3 (amended): whenever no record-type switch is enabled or wildcard
    filtering is requested, [New] appends A to the enabled types; the
    resulting set of question types is exactly {A} if and only if no switch
    other than A is enabled, and the list is [A] alone when no switch is
    enabled. *)
Theorem New_question_types (o : Options) :
  no_switch o = true \/ WildcardDomain o <> "" ->
  QuestionTypes o = requestedTypes o ++ [TypeA] /\
  (list_to_set (QuestionTypes o) = ({[TypeA]} : gset Z)
   <-> no_other_switch o = true) /\
  (no_switch o = true -> QuestionTypes o = [TypeA]).
Proof.
  intros H. pose proof (New_appends_A o H) as E. split; [exact E |]. split.
  - rewrite E, <- only_A_requested. split.
    + intros S t Ht.
      assert (t ∈ ({[TypeA]} : gset Z)) as Hin.
      { rewrite <- S. apply elem_of_list_to_set, list_elem_of_In, in_or_app. now left. }
      now apply elem_of_singleton in Hin.
    + intros A. apply set_eq. intros t.
      rewrite elem_of_list_to_set, list_elem_of_In, in_app_iff, elem_of_singleton.
      simpl. split; [intros [Ht | [Ht | []]]; auto | intros ->; right; now left].
  - intros N. rewrite E. apply requestedTypes_nil in N. now rewrite N.
Qed.

Lemma New_question_types_witness :
  (no_switch defaultOptions = true \/ WildcardDomain defaultOptions <> "") /\
  QuestionTypes defaultOptions = requestedTypes defaultOptions ++ [TypeA] /\
  (list_to_set (QuestionTypes defaultOptions) = ({[TypeA]} : gset Z)
   <-> no_other_switch defaultOptions = true) /\
  (no_switch defaultOptions = true -> QuestionTypes defaultOptions = [TypeA]).
Proof.
  split; [left; reflexivity |].
  apply (New_question_types defaultOptions). left. reflexivity.
Defined.

(** ** The resume cursor in [InputWorker] *)

Lemma wrap_int_small (z : Z) : - 2 ^ 63 <= z < 2 ^ 63 -> wrap_int z = z.
Proof. intros H. unfold wrap_int. rewrite Z.mod_small; lia. Qed.

(** The scan from an arbitrary cursor position: the entries whose position
    does not exceed [Index] are skipped, the others are pushed in order. *)
Lemma InputWorker_scan_pushes (r : Runner) (entries : list (string * string)) :
  forall (c : ResumeCfg) (req : Z) (chan : list string),
    0 <= currentIndex c ->
    currentIndex c + Z.of_nat (List.length entries) < 2 ^ 63 ->
    workerchan (InputWorker_scan r entries (mkInputState (Some c) req chan))
    = chan ++ drop (Z.to_nat (Index c - currentIndex c)) (map fst entries).
Proof.
  induction entries as [| [k v] entries IH]; intros c req chan Hc Hb.
  - simpl. now rewrite drop_nil, app_nil_r.
  - unfold InputWorker_scan in *. cbn [fold_left List.length map fst] in *.
    unfold InputWorker_item at 2. cbn [inResume fst currentIndex Index].
    rewrite wrap_int_small by lia.
    destruct (Z.leb_spec (currentIndex c + 1) (Index c)) as [Hle | Hgt].
    + rewrite IH by (cbn [currentIndex]; lia). cbn [Index currentIndex workerchan].
      replace (Z.to_nat (Index c - currentIndex c))
        with (S (Z.to_nat (Index c - (currentIndex c + 1)))) by lia.
      reflexivity.
    + rewrite IH by (cbn [currentIndex]; lia). cbn [Index currentIndex workerchan].
      replace (Z.to_nat (Index c - (currentIndex c + 1))) with O by lia.
      replace (Z.to_nat (Index c - currentIndex c)) with O by lia.
      rewrite !drop_0, <- app_assoc. reflexivity.
Qed.

(** C4: with a resume cursor of index [I >= 0] the scan skips exactly the
    first [I] items, so that the first host pushed to the worker channel is
    the item at position [I+1] of the scan (offset [I] counting from zero);
    when [I] is at or beyond the size of the Work Set nothing is pushed. *)
Theorem InputWorker_resume (r : Runner) (c : ResumeCfg) :
  resumeCfg (options r) = Some c ->
  currentIndex c = 0 ->
  0 <= Index c ->
  Z.of_nat (size (hm r)) < 2 ^ 63 ->
  let keys := map fst (Scan (hm r)) in
  let pushed := workerchan (InputWorker r) in
  pushed = drop (Z.to_nat (Index c)) keys /\
  head pushed = keys !! Z.to_nat (Index c) /\
  (Z.of_nat (List.length keys) <= Index c -> pushed = []).
Proof.
  intros Hc H0 HI Hn keys pushed.
  assert (Hlen : List.length (Scan (hm r)) = size (hm r)).
  { unfold Scan. apply length_map_to_list. }
  assert (E : pushed = drop (Z.to_nat (Index c)) keys).
  { unfold pushed, InputWorker. rewrite Hc.
    rewrite InputWorker_scan_pushes by (rewrite ?Hlen; lia).
    rewrite H0, Z.sub_0_r. reflexivity. }
  split; [exact E |]. split.
  - rewrite E, head_lookup, lookup_drop. f_equal. lia.
  - intros Hge. rewrite E. apply drop_ge. lia.
Qed.

Lemma InputWorker_resume_witness :
  resumeCfg (options resumeRunner) = Some resumeCursor /\
  currentIndex resumeCursor = 0 /\
  0 <= Index resumeCursor /\
  Z.of_nat (size (hm resumeRunner)) < 2 ^ 63 /\
  workerchan (InputWorker resumeRunner)
    = drop (Z.to_nat (Index resumeCursor)) (map fst (Scan (hm resumeRunner))).
Proof.
  assert (H1 : resumeCfg (options resumeRunner) = Some resumeCursor) by reflexivity.
  assert (H2 : currentIndex resumeCursor = 0) by reflexivity.
  assert (H3 : 0 <= Index resumeCursor) by (simpl; lia).
  assert (H4 : Z.of_nat (size (hm resumeRunner)) < 2 ^ 63) by (vm_compute; reflexivity).
  split; [exact H1 |]. split; [exact H2 |]. split; [exact H3 |].
  split; [exact H4 |].
  apply (InputWorker_resume resumeRunner resumeCursor H1 H2 H3 H4).
Defined.

(** ** The gates of the resolver worker *)

Lemma dispatch_is_not_a_gate `{SL : GoStringsLib} (X : Externals) (r : Runner) (domain : string)
    (rd : ResponseData) :
  dispatch X r domain rd <> RcodeRejected /\
  dispatch X r domain rd <> AxfrEmpty.
Proof. unfold dispatch. repeat case_match; split; discriminate. Qed.

Lemma rcode_rejected_spec (o : Options) (d : DNSData) :
  rcode_rejected o d = true <->
  HostsFile d = false /\ (0 < size (rcodes o))%nat /\ StatusCodeRaw d ∉ rcodes o.
Proof.
  unfold rcode_rejected.
  destruct (HostsFile d); simpl; [intuition discriminate |].
  destruct (Nat.ltb_spec 0 (size (rcodes o))) as [Hs | Hs].
  - rewrite negb_true_iff, bool_decide_eq_false. intuition.
  - split; [discriminate | intros (_ & Hlt & _); lia].
Qed.

(** C7: for a resolved answer and a configured response-code allow-list,
    the worker drops the entry at the response-code check exactly when the
    answer does not come from the hosts file and its code is not in the
    list; an answer from the hosts file is never dropped there. *)
Theorem rcode_allow_list `{SL : GoStringsLib} (X : Externals) (r : Runner) (domain : string)
    (d : DNSData) :
  QueryMultiple X (target X domain) = Some d ->
  Host d <> "" ->
  TimestampIsZero d = false ->
  (0 < size (rcodes (options r)))%nat ->
  (worker_body X r domain = RcodeRejected
   <-> HostsFile d = false /\ StatusCodeRaw d ∉ rcodes (options r)) /\
  (HostsFile d = true -> worker_body X r domain <> RcodeRejected).
Proof.
  intros Hq Hh Ht Hs.
  assert (Hbody : worker_body X r domain
                  = if rcode_rejected (options r) d then RcodeRejected
                    else match enrich X r (target X domain) d with
                         | None => AxfrEmpty
                         | Some rd => dispatch X r (target X domain) rd
                         end).
  { unfold worker_body. rewrite Hq, Ht.
    apply String.eqb_neq in Hh. rewrite Hh. reflexivity. }
  assert (Hiff : worker_body X r domain = RcodeRejected
                 <-> rcode_rejected (options r) d = true).
  { rewrite Hbody. destruct (rcode_rejected (options r) d); [tauto |].
    split; [| discriminate].
    destruct (enrich X r (target X domain) d) as [rd |]; [| discriminate].
    intros E. now apply dispatch_is_not_a_gate in E. }
  split.
  - rewrite Hiff, rcode_rejected_spec. tauto.
  - intros Hf. rewrite Hiff, rcode_rejected_spec. rewrite Hf. intuition discriminate.
Qed.

(** The response-code scenario: with the allow-list {NXDOMAIN}, [a.test]
    (NOERROR) is dropped and [b.test] (NXDOMAIN) is printed. *)
Lemma rcode_allow_list_witness :
  QueryMultiple stubX (target stubX "a.test")
    = Some (answer "a.test" 0 ["192.0.2.1"] []) /\
  (worker_body stubX (NewRunner rcodeOptions) "a.test" = RcodeRejected
   <-> HostsFile (answer "a.test" 0 ["192.0.2.1"] []) = false /\
       StatusCodeRaw (answer "a.test" 0 ["192.0.2.1"] [])
         ∉ rcodes (options (NewRunner rcodeOptions))) /\
  worker_body stubX (NewRunner rcodeOptions) "b.test"
    = Emitted ["b.test [NXDOMAIN]"].
Proof.
  split; [reflexivity |]. split; [| reflexivity].
  apply (rcode_allow_list stubX (NewRunner rcodeOptions) "a.test"
           (answer "a.test" 0 ["192.0.2.1"] [])).
  - reflexivity.
  - discriminate.
  - reflexivity.
  - vm_compute. lia.
Defined.

(** The zone-transfer gate drops the entry exactly when the transfer is
    enabled, the client was given exactly one question type, the transfer
    brought no data and the output is not JSON. *)
Lemma axfr_stage_spec (X : Externals) (r : Runner) (domain : string)
    (d : DNSData) :
  axfr_stage X r domain d = None <->
  AXFR (options r) = true /\
  List.length (dnsxQuestionTypes r) = 1%nat /\
  match dnsAXFR X domain with
  | Some x => axfrDNSData x = []
  | None => True
  end /\
  JSON (options r) = false.
Proof.
  unfold axfr_stage. destruct (AXFR (options r)); [| intuition discriminate].
  destruct (dnsAXFR X domain) as [x |].
  - destruct (axfrDNSData x) as [| e l]; simpl;
      destruct (Nat.eqb_spec (List.length (dnsxQuestionTypes r)) 1);
      destruct (JSON (options r)); simpl; intuition (try discriminate; try lia).
  - destruct (Nat.eqb_spec (List.length (dnsxQuestionTypes r)) 1);
      destruct (JSON (options r)); simpl; intuition (try discriminate; try lia).
Qed.

(** When only the zone transfer is asked for, [New] supplies the single
    question type A, so the gate applies. *)
Lemma only_axfr_has_one_type (o : Options) :
  no_switch o = true -> List.length (dnsxQuestionTypes (NewRunner o)) = 1%nat.
Proof.
  intros H. cbn [NewRunner dnsxQuestionTypes].
  change (snd (New o)) with (QuestionTypes o).
  rewrite (New_appends_A o (or_introl H)).
  apply requestedTypes_nil in H. now rewrite H.
Qed.

(** C6: the code drops more than the claim allows.  With the A switch and
    the zone transfer both requested, an answer that carries an A record is
    dropped when the transfer brings nothing, although AXFR is not the only
    configured query type; without the zone transfer the same answer is
    printed. *)
Theorem axfr_discards_with_A_requested :
  optA (queryOptions true false true false "" ∅ []) = true /\
  worker_body stubX (NewRunner (queryOptions true false true false "" ∅ []))
    "a.test" = AxfrEmpty /\
  worker_body stubX (NewRunner (queryOptions true false false false "" ∅ []))
    "a.test" = Emitted ["a.test"].
Proof. repeat split; reflexivity. Qed.

(** ** Default record-type output *)

Section DefaultOutput.
Context `{SL : GoStringsLib}.
Variable X : Externals.
Variable o : Options.
Hypothesis no_resp : Response o = false.
Hypothesis no_resp_only : ResponseOnly o = false.

(** Without [-resp] and [-resp-only] one call prints the host once when
    the record list is not empty, and nothing otherwise. *)
Lemma output_records_default (domain queryType details : string)
    (records : list string) :
  output_records X o domain queryType details records
  = if has_records records then [domain +:+ details] else [].
Proof.
  destruct records as [| item rest]; [reflexivity |].
  cbn [output_records]. now rewrite no_resp, no_resp_only.
Qed.

Lemma when_outputRecordType (b : bool) (domain queryType cdn : string)
    (asn : option AsnResponse) (l : list string) :
  when b (outputRecordType X o domain (StringItems l) queryType cdn asn)
  = if has_records (if b then l else [])
    then [domain +:+ details_of X cdn asn] else [].
Proof.
  unfold when, outputRecordType. destruct b; [| reflexivity].
  apply output_records_default.
Qed.
End DefaultOutput.

Lemma flat_map_repeat {A : Type} (x : A) (p : list string -> bool)
    (ls : list (list string)) :
  flat_map (fun l => if p l then [x] else []) ls
  = repeat x (List.length (List.filter p ls)).
Proof.
  induction ls as [| l ls IH]; [reflexivity |].
  cbn [flat_map List.filter]. destruct (p l); cbn; now rewrite IH.
Qed.

(** C5, as stated, fails: with A and AAAA requested and both present in the
    answer, the host line is sent twice. *)
Lemma default_mode_repeats_host_line :
  default_mode (options (NewRunner (queryOptions true true false false "" ∅ [])))
    = true /\
  worker_body stubX (NewRunner (queryOptions true true false false "" ∅ []))
    "dual.test" = Emitted ["dual.test"; "dual.test"] /\
  count_occ String.string_dec ["dual.test"; "dual.test"] "dual.test" = 2%nat.
Proof. repeat split; reflexivity. Qed.

(** An entry that reaches the dispatch in default record-type output mode
    gets the host line once for every requested question type whose record
    list is not empty. *)
Lemma dispatch_default_mode `{SL : GoStringsLib} (X : Externals) (r : Runner)
    (domain : string) (rd : ResponseData) :
  default_mode (options r) = true ->
  dispatch X r domain rd
  = Emitted
      (repeat (domain +:+ details_of X (CDNName rd) (rdASN rd))
         (List.length
            (List.filter has_records
               (requested_records X (options r) (rdDNS rd))))).
Proof.
  unfold default_mode. intros H.
  repeat (apply andb_true_iff in H; destruct H as [H ?]).
  repeat match goal with
         | E : negb _ = true |- _ => apply negb_true_iff in E
         end.
  rewrite <- flat_map_repeat. unfold dispatch.
  rewrite H.
  match goal with E : Nat.eqb _ 0 = true |- _ => apply Nat.eqb_eq in E; rewrite E end.
  cbn [Nat.ltb Nat.leb andb].
  repeat match goal with E : _ = false |- _ => rewrite E end.
  rewrite !when_outputRecordType by assumption.
  unfold requested_records. cbn [flat_map]. rewrite app_nil_r. reflexivity.
Qed.

(** The stages before the dispatch leave the record lists of the answer as
    the resolver returned them. *)
Lemma enrich_keeps_records (X : Externals) (r : Runner) (domain : string)
    (d : DNSData) (rd : ResponseData) :
  enrich X r domain d = Some rd ->
  requested_records X (options r) (rdDNS rd) = requested_records X (options r) d.
Proof.
  unfold enrich, axfr_stage, trace_stage, cdn_stage, asn_stage.
  intros E. repeat case_match; simplify_eq; reflexivity.
Qed.

(** C5 (amended): in default record-type output mode (neither [-resp] nor
    [-resp-only], and no JSON, raw, response-code or response-type-filter
    output and no wildcard domain), for every resolved host the line
    [host [CDN] [ASN]] is emitted at most once for each requested question
    type that has non-empty records: every line sent for the host is that
    line, and there are at most as many of them as there are such types. *)
Theorem default_mode_lines `{SL : GoStringsLib} (X : Externals) (r : Runner)
    (domain : string) (d : DNSData) :
  default_mode (options r) = true ->
  QueryMultiple X (target X domain) = Some d ->
  exists (details : string) (k : nat),
    lines_of (worker_body X r domain)
    = repeat (target X domain +:+ details) k /\
    (k <= List.length
            (List.filter has_records (requested_records X (options r) d)))%nat.
Proof.
  intros M Q. unfold worker_body. rewrite Q.
  destruct (String.eqb (Host d) "" || TimestampIsZero d)%bool;
    [exists "", O; split; [reflexivity | lia] |].
  destruct (rcode_rejected (options r) d);
    [exists "", O; split; [reflexivity | lia] |].
  destruct (enrich X r (target X domain) d) as [rd |] eqn:E;
    [| exists "", O; split; [reflexivity | lia]].
  rewrite (dispatch_default_mode X r _ rd M), (enrich_keeps_records X r _ d rd E).
  cbn [lines_of]. eexists _, _. split; [reflexivity | lia].
Qed.

Lemma default_mode_lines_witness :
  default_mode (options (NewRunner (queryOptions true true false false "" ∅ [])))
    = true /\
  QueryMultiple stubX (target stubX "dual.test")
    = Some (answer "dual.test" 0 ["192.0.2.7"] ["2001:db8::7"]) /\
  exists (details : string) (k : nat),
    lines_of
      (worker_body stubX
         (NewRunner (queryOptions true true false false "" ∅ [])) "dual.test")
    = repeat (target stubX "dual.test" +:+ details) k /\
    (k <= List.length
            (List.filter has_records
               (requested_records stubX
                  (options (NewRunner (queryOptions true true false false "" ∅ [])))
                  (answer "dual.test" 0 ["192.0.2.7"] ["2001:db8::7"]))))%nat.
Proof.
  split; [reflexivity |]. split; [reflexivity |].
  apply (default_mode_lines stubX
           (NewRunner (queryOptions true true false false "" ∅ [])) "dual.test"
           (answer "dual.test" 0 ["192.0.2.7"] ["2001:db8::7"]));
    reflexivity.
Defined.

(** ** The response-type filter *)

(** [shouldSkipRecord] answers true exactly when, reading the entries in
    order, an entry that names a record type present in the answer comes
    before any entry the switch does not know. *)
Lemma shouldSkipRecord_spec `{SL : GoStringsLib} (filter : list string)
    (d : DNSData) :
  shouldSkipRecord filter d = true <->
  exists pre et post n,
    filter = pre ++ et :: post /\
    Forall (fun e => filter_count (filter_name e) d = Some O) pre /\
    filter_count (filter_name et) d = Some (S n).
Proof.
  induction filter as [| e rest IH].
  - split; [discriminate |]. intros (pre & et & post & n & E & _).
    destruct pre; discriminate E.
  - cbn [shouldSkipRecord]. fold (filter_name e).
    destruct (filter_count (filter_name e) d) as [[| k] |] eqn:Ec.
    + cbn. rewrite IH. split.
      * intros (pre & et & post & n & -> & Hpre & Het).
        exists (e :: pre), et, post, n. repeat split; auto.
      * intros (pre & et & post & n & E & Hpre & Het).
        destruct pre as [| p pre].
        -- injection E as -> _. congruence.
        -- injection E as -> ->. inversion Hpre; subst. eauto 8.
    + cbn. split; [intros _ | reflexivity].
      exists [], e, rest, k. repeat split; auto.
    + split; [discriminate |].
      intros (pre & et & post & n & E & Hpre & Het).
      destruct pre as [| p pre].
      * injection E as -> _. congruence.
      * injection E as -> _. inversion Hpre; subst. congruence.
Qed.

(** The switch of [shouldSkipRecord] against the ten type names: a name it
    knows selects the record list of that type, any other string selects
    nothing. *)
Lemma filter_count_known (t : string) (d : DNSData) :
  t ∈ known_filter_types <-> is_Some (filter_count t d).
Proof.
  unfold known_filter_types, filter_count.
  repeat match goal with
         | |- context [String.eqb t ?s] =>
             destruct (String.eqb_spec t s) as [-> | ?];
             [split; [eauto | intros _; set_solver] |]
         end.
  split; [| intros [? [=]]].
  rewrite !elem_of_cons, elem_of_nil. intuition congruence.
Qed.

Lemma has_records_positive {A : Type} (l : list A) :
  l <> [] <-> exists n, Some (List.length l) = Some (S n).
Proof.
  destruct l as [| x l]; cbn.
  - split; [congruence | intros [n [=]]].
  - split; [eauto | congruence].
Qed.

Lemma filter_count_positive (t : string) (d : DNSData) :
  answer_has_type d t <-> exists n, filter_count t d = Some (S n).
Proof.
  unfold answer_has_type, filter_count.
  repeat match goal with
         | |- context [String.eqb t ?s] =>
             destruct (String.eqb_spec t s) as [-> | ?];
             [rewrite <- has_records_positive; intuition congruence |]
         end.
  split; [intuition congruence | intros [k [=]]].
Qed.

Lemma shouldSkipRecord_known `{SL : GoStringsLib} (filter : list string)
    (d : DNSData) :
  Forall (fun e => filter_name e ∈ known_filter_types) filter ->
  (shouldSkipRecord filter d = true
   <-> Exists (fun e => answer_has_type d (filter_name e)) filter).
Proof.
  induction 1 as [| e rest K _ IH].
  - cbn. split; [discriminate | intros E; inversion E].
  - cbn [shouldSkipRecord]. fold (filter_name e). rewrite Exists_cons.
    apply (filter_count_known _ d) in K as [n Hn]. rewrite Hn.
    destruct n as [| n]; cbn.
    + rewrite IH. split; [tauto |]. intros [A | A]; [| exact A].
      apply filter_count_positive in A as [k A]. congruence.
    + split; [| reflexivity]. intros _. left.
      apply filter_count_positive. eauto.
Qed.

Lemma dispatch_Filtered `{SL : GoStringsLib} (X : Externals) (r : Runner)
    (domain : string) (rd : ResponseData) :
  responseTypeFilterMap (options r) <> [] ->
  WildcardDomain (options r) = "" ->
  (dispatch X r domain rd = Filtered
   <-> shouldSkipRecord (responseTypeFilterMap (options r)) (rdDNS rd) = true).
Proof.
  intros Hf Hw. unfold dispatch. rewrite Hw. cbn [nonempty String.eqb negb].
  destruct (responseTypeFilterMap (options r)) as [| e rest] eqn:E; [congruence |].
  cbn [List.length Nat.ltb Nat.leb andb].
  destruct (shouldSkipRecord (e :: rest) (rdDNS rd)); [tauto |].
  split; [| discriminate]. repeat case_match; discriminate.
Qed.

(** One call of [outputRecordType] sends nothing exactly when it is given
    no record. *)
Lemma outputRecordType_nil `{SL : GoStringsLib} (X : Externals) (o : Options)
    (domain queryType cdn : string) (asn : option AsnResponse)
    (l : list string) :
  outputRecordType X o domain (StringItems l) queryType cdn asn = [] <-> l = [].
Proof.
  unfold outputRecordType. cbn [records_of].
  destruct l as [| item rest]; [tauto |]. cbn [output_records].
  destruct (ResponseOnly o); [split; discriminate |].
  destruct (Response o); split; discriminate.
Qed.

(** What an entry that passes the filter sends: one line in JSON and in raw
    output, and otherwise the lines of its ten record lists. *)
Lemma dispatch_unfiltered `{SL : GoStringsLib} (X : Externals) (r : Runner)
    (domain : string) (rd : ResponseData) :
  responseTypeFilterMap (options r) <> [] ->
  WildcardDomain (options r) = "" ->
  shouldSkipRecord (responseTypeFilterMap (options r)) (rdDNS rd) = false ->
  (lines_of (dispatch X r domain rd) = []
   <-> JSON (options r) = false /\ Raw (options r) = false /\
       Forall (fun l => l = []) (printed_with_filter X (rdDNS rd))).
Proof.
  intros Hf Hw Hs. unfold dispatch. rewrite Hw, Hs. cbn [nonempty String.eqb negb].
  rewrite andb_false_r.
  destruct (JSON (options r)); [cbn; split; [discriminate | intros [[=] _]] |].
  destruct (Raw (options r)); [cbn; split; [discriminate | intros (_ & [=] & _)] |].
  destruct (responseTypeFilterMap (options r)) as [| e rest]; [congruence |].
  cbn [List.length Nat.ltb Nat.leb lines_of]. unfold printed_with_filter.
  rewrite !app_nil, !outputRecordType_nil, !Forall_cons, Forall_nil.
  tauto.
Qed.

(** The check stops at an entry it does not know: with the filter [any,a]
    the answer of [a.test], which has an A record, is printed. *)
Lemma filter_stops_at_unknown_entry :
  worker_body stubX
    (NewRunner (queryOptions true false false false "" ∅ ["any"; "a"]))
    "a.test" = Emitted ["a.test"].
Proof. reflexivity. Qed.

(** C8, as stated, fails: with the filter [a] the answer of [b.test] has no
    record of a configured filter type, and nothing is emitted for it all
    the same, because it has no record at all. *)
Lemma unfiltered_entry_without_records :
  ~ Exists (fun e => answer_has_type (answer "b.test" 3 [] []) (filter_name e))
      ["a"] /\
  QueryMultiple stubX (target stubX "b.test") = Some (answer "b.test" 3 [] []) /\
  worker_body stubX
    (NewRunner (queryOptions true false false false "" ∅ ["a"])) "b.test"
  = Emitted [].
Proof.
  split; [| split; reflexivity].
  intros E. apply Exists_cons in E as [E | E]; [| inversion E].
  apply filter_count_positive in E as [n E]. discriminate E.
Qed.

(** C8 (amended): with a response-type filter configured, all of whose
    entries name record types the filter knows, and wildcard filtering
    disabled, an entry that reaches the dispatch is suppressed (nothing is
    emitted for it) if and only if the answer has at least one record of at
    least one of the configured filter types or, outside JSON and raw
    output, has no record to print at all; the filter itself drops the
    entry exactly in the first case. *)
Theorem response_type_filter `{SL : GoStringsLib} (X : Externals) (r : Runner)
    (domain : string) (rd : ResponseData) :
  responseTypeFilterMap (options r) <> [] ->
  WildcardDomain (options r) = "" ->
  Forall (fun e => filter_name e ∈ known_filter_types)
    (responseTypeFilterMap (options r)) ->
  (lines_of (dispatch X r domain rd) = []
   <-> Exists (fun e => answer_has_type (rdDNS rd) (filter_name e))
         (responseTypeFilterMap (options r))
       \/ (JSON (options r) = false /\ Raw (options r) = false /\
           Forall (fun l => l = []) (printed_with_filter X (rdDNS rd)))) /\
  (dispatch X r domain rd = Filtered
   <-> Exists (fun e => answer_has_type (rdDNS rd) (filter_name e))
         (responseTypeFilterMap (options r))).
Proof.
  intros Hf Hw K.
  pose proof (dispatch_Filtered X r domain rd Hf Hw) as D.
  pose proof (shouldSkipRecord_known _ (rdDNS rd) K) as S.
  split; [| now rewrite D].
  destruct (shouldSkipRecord (responseTypeFilterMap (options r)) (rdDNS rd)) eqn:B.
  - assert (F : dispatch X r domain rd = Filtered) by now apply D.
    rewrite F. cbn [lines_of]. split; [intros _; left; now apply S | reflexivity].
  - rewrite (dispatch_unfiltered X r domain rd Hf Hw B). split; [tauto |].
    intros [E | E]; [| exact E]. apply S in E. discriminate E.
Qed.

Lemma response_type_filter_witness :
  responseTypeFilterMap
    (options (NewRunner (queryOptions true false false false "" ∅ [" A "; "aaaa"])))
    <> [] /\
  Forall (fun e => filter_name e ∈ known_filter_types) [" A "; "aaaa"] /\
  lines_of
    (dispatch stubX
       (NewRunner (queryOptions true false false false "" ∅ [" A "; "aaaa"]))
       "a.test"
       (mkResponseData (answer "a.test" 0 ["192.0.2.1"] []) false "" None))
  = [].
Proof.
  assert (K : Forall (fun e => filter_name e ∈ known_filter_types) [" A "; "aaaa"]).
  { repeat constructor; apply (filter_count_known _ (answer "" 0 [] []));
      eexists; reflexivity. }
  split; [discriminate |]. split; [exact K |].
  apply (response_type_filter stubX
           (NewRunner (queryOptions true false false false "" ∅ [" A "; "aaaa"]))
           "a.test"
           (mkResponseData (answer "a.test" 0 ["192.0.2.1"] []) false "" None));
    [discriminate | reflexivity | exact K |].
  left. apply Exists_cons. left. apply filter_count_positive.
  eexists. reflexivity.
Defined.

(** ** Missing input *)

(** C9: in stream mode, when the hosts file does not exist and standard
    input is not available, the scanner of the stream input worker is still
    nil when it is first used and the worker panics; under the same
    conditions (no inline list, hosts argument not the standard-input
    marker) the non-stream path returns the missing-input error. *)
Theorem stream_without_input_panics `{SL : GoStringsLib} (os : OS) (r : Runner) :
  FileExists os (Hosts (options r)) = false ->
  HasStdin os = false ->
  InputWorkerStream os r = NilScannerPanic /\
  (Domains (options r) = "" ->
   argumentHasStdin os (Hosts (options r)) = false ->
   prepareInput os r = Err ErrInputNotProvided).
Proof.
  intros Hf Hs. split.
  - unfold InputWorkerStream. now rewrite Hf, Hs.
  - intros Hd Ha. unfold prepareInput, copy_stdin. rewrite Hs. cbn.
    unfold input_lines. rewrite Hd, Hf, Ha, Hs. reflexivity.
Qed.

Lemma stream_without_input_panics_witness :
  FileExists emptyOS (Hosts (options (NewRunner defaultOptions))) = false /\
  HasStdin emptyOS = false /\
  InputWorkerStream emptyOS (NewRunner defaultOptions) = NilScannerPanic /\
  prepareInput emptyOS (NewRunner defaultOptions) = Err ErrInputNotProvided.
Proof.
  split; [reflexivity |]. split; [reflexivity |].
  destruct (stream_without_input_panics emptyOS (NewRunner defaultOptions)
              eq_refl eq_refl) as [P N].
  split; [exact P | apply N; reflexivity].
Defined.

(** ** Input expansion without expansion sources *)

Lemma addHost_dom (m : gmap string string) (n : Z) (host : string) :
  dom (fst (addHost (m, n) host)) = {[host]} ∪ dom m.
Proof.
  cbn [addHost]. destruct (m !! host) eqn:E; cbn [fst].
  - apply elem_of_dom_2 in E. set_solver.
  - apply dom_insert_L.
Qed.

Lemma addHost_queued (m : gmap string string) (n : Z) (host : string) :
  all_queued m -> all_queued (fst (addHost (m, n) host)).
Proof.
  intros Q. cbn [addHost]. destruct (m !! host) eqn:E; cbn [fst]; [exact Q |].
  intros h v. rewrite lookup_insert. case_decide; [congruence | apply Q].
Qed.

Lemma addHost_count (m : gmap string string) (n : Z) (host : string) :
  n = Z.of_nat (size m) ->
  snd (addHost (m, n) host) = Z.of_nat (size (fst (addHost (m, n) host))).
Proof.
  intros ->. cbn [addHost]. destruct (m !! host) eqn:E; cbn [fst snd]; [reflexivity |].
  rewrite map_size_insert_None by exact E. lia.
Qed.

Lemma addHosts_spec (hosts : list string) :
  forall (m : gmap string string) (n : Z),
    all_queued m -> n = Z.of_nat (size m) ->
    let acc := fold_left addHost hosts (m, n) in
    dom (fst acc) = list_to_set hosts ∪ dom m /\
    all_queued (fst acc) /\
    snd acc = Z.of_nat (size (fst acc)).
Proof.
  induction hosts as [| host hosts IH]; intros m n Q N.
  - cbn. repeat split; auto. set_solver.
  - cbn [fold_left list_to_set].
    pose proof (addHost_dom m n host) as D.
    pose proof (addHost_queued m n host Q) as Q'.
    pose proof (addHost_count m n host N) as N'.
    destruct (addHost (m, n) host) as [m' n']. cbn [fst snd] in *.
    destruct (IH m' n' Q' N') as (D2 & Q2 & N2).
    repeat split; auto. rewrite D2, D. set_solver.
Qed.

Lemma expand_item_plain `{SL : GoStringsLib} (os : OS) (o : Options) (tmp : string)
    (acc : gmap string string * Z) (line : string) :
  WordList o = "" -> plain_line os line ->
  expand_item os o tmp acc line = Ok (addHost acc (TrimSpace line)).
Proof.
  intros W (F & C & A). destruct acc as [m n]. unfold expand_item.
  rewrite F, W, C, A. cbn [nonempty String.eqb negb].
  unfold addHostsToHMapFromList, normalize. cbn [fold_left addHost].
  destruct (m !! TrimSpace line); f_equal; f_equal; lia.
Qed.

Lemma expand_items_plain `{SL : GoStringsLib} (os : OS) (o : Options) (tmp : string)
    (lines : list string) :
  WordList o = "" -> Forall (plain_line os) lines ->
  forall acc,
    expand_items os o tmp acc lines
    = Ok (fold_left addHost (map TrimSpace lines) acc).
Proof.
  intros W P. induction P as [| line lines Pl _ IH]; intros acc; [reflexivity |].
  cbn [expand_items map fold_left].
  rewrite (expand_item_plain _ _ _ _ _ W Pl). apply IH.
Qed.

Lemma copy_stdin_classifiers (os os' : OS) (tmp : string) :
  copy_stdin os = Ok (os', tmp) ->
  IsCIDR os' = IsCIDR os /\ IsASN os' = IsASN os.
Proof.
  unfold copy_stdin. destruct (HasStdin os).
  - destruct (GetTempFileName os); cbn; [| discriminate].
    destruct (copyStdin os); [| discriminate].
    intros [= <- _]. split; reflexivity.
  - intros [= <- _]. split; reflexivity.
Qed.

(** C2, as stated, fails: the host is stored as written, in mixed case, and
    the blank line is stored as the empty host. *)
Lemma prepareInput_keeps_case_and_blank :
  prepareInput (stubOS mixedLines) plainRunner
    = Ok (set_hm plainRunner (<["" := ""]> (<["Www.Example.COM" := ""]> ∅)), 2) /\
  spec_WorkSet mixedLines = {["www.example.com"]} /\
  dom (<["" := ""]> (<["Www.Example.COM" := ""]> (∅ : gmap string string)))
    <> spec_WorkSet mixedLines.
Proof.
  split; [vm_compute; reflexivity |]. split; [vm_compute; reflexivity |].
  intros E.
  assert ("www.example.com" ∈ spec_WorkSet mixedLines) as Hin
    by (vm_compute spec_WorkSet; set_solver).
  rewrite <- E in Hin. rewrite !dom_insert_L, dom_empty_L in Hin.
  set_solver.
Qed.

(** C2 (amended): for every input without expansion sources, the Work Set
    after input expansion is exactly the set of the whitespace-trimmed lines
    of the input, each stored once as a queued host (case is kept and a
    blank line gives the empty host), and the reported number of hosts is
    the size of that set. *)
Theorem prepareInput_plain `{SL : GoStringsLib} (os os' : OS) (r : Runner) (tmp : string)
    (S : list string) :
  hm r = ∅ ->
  copy_stdin os = Ok (os', tmp) ->
  input_lines os' (options r) tmp = Ok S ->
  WordList (options r) = "" ->
  Forall (plain_line os) S ->
  exists m : gmap string string,
    prepareInput os r = Ok (set_hm r m, Z.of_nat (size m)) /\
    dom m = list_to_set (map TrimSpace S) /\
    all_queued m.
Proof.
  intros He Hc Hi W P.
  destruct (copy_stdin_classifiers _ _ _ Hc) as [EC EA].
  assert (P' : Forall (plain_line os') S).
  { eapply Forall_impl; [exact P |]. unfold plain_line. intros l.
    cbv beta. rewrite EC, EA. tauto. }
  assert (Q0 : all_queued (∅ : gmap string string)).
  { intros h v. rewrite lookup_empty. discriminate. }
  destruct (addHosts_spec (map TrimSpace S) ∅ 0 Q0) as (D & Q & N);
    [now rewrite map_size_empty |].
  exists (fst (fold_left addHost (map TrimSpace S) (∅, 0))).
  split; [| split; [rewrite D; set_solver | exact Q]].
  unfold prepareInput. rewrite Hc. cbn. rewrite Hi. cbn.
  rewrite (expand_items_plain _ _ _ _ W P'), He. cbn. now rewrite N.
Qed.

Lemma prepareInput_plain_witness :
  hm plainRunner = ∅ /\
  copy_stdin (stubOS mixedLines) = Ok (stubOS mixedLines, "") /\
  input_lines (stubOS mixedLines) (options plainRunner) "" = Ok mixedLines /\
  WordList (options plainRunner) = "" /\
  Forall (plain_line (stubOS mixedLines)) mixedLines /\
  exists m : gmap string string,
    prepareInput (stubOS mixedLines) plainRunner
      = Ok (set_hm plainRunner m, Z.of_nat (size m)) /\
    dom m = list_to_set (map TrimSpace mixedLines) /\
    all_queued m.
Proof.
  assert (P : Forall (plain_line (stubOS mixedLines)) mixedLines)
    by (repeat constructor).
  split; [reflexivity |]. split; [reflexivity |]. split; [reflexivity |].
  split; [reflexivity |]. split; [exact P |].
  apply (prepareInput_plain (stubOS mixedLines) (stubOS mixedLines) plainRunner
           "" mixedLines eq_refl eq_refl eq_refl eq_refl P).
Defined.

(** ** The first scan of the wildcard pass *)

Section Grouping.
Variable X : Externals.

Lemma hosts_of_is_Some (ipDomain : gmap string (gset string)) (a h : string) :
  h ∈ hosts_of ipDomain a -> is_Some (ipDomain !! a).
Proof.
  unfold hosts_of. destruct (ipDomain !! a); [eauto | set_solver].
Qed.

Lemma ipDomain_add_hosts (k : string) acc (a b h : string) :
  h ∈ hosts_of (fst (ipDomain_add k acc a)) b
  <-> h ∈ hosts_of (fst acc) b \/ (h = k /\ b = a).
Proof.
  destruct acc as [ipDomain listIPs]. unfold ipDomain_add.
  destruct (ipDomain !! a) as [s |] eqn:E; cbn [fst]; unfold hosts_of;
    rewrite ?lookup_insert; repeat case_decide; subst;
    rewrite ?lookup_insert_eq, ?E; cbn [default]; set_solver.
Qed.

Lemma ipDomain_add_covered (k : string) acc (a : string) :
  covered acc -> covered (ipDomain_add k acc a).
Proof.
  destruct acc as [ipDomain listIPs]. unfold covered, ipDomain_add.
  intros C b. destruct (ipDomain !! a) as [s |] eqn:E; cbn [fst snd] in *;
    rewrite ?lookup_insert; repeat case_decide; subst; intros Hb;
    try (apply C; rewrite ?E; eauto; fail); set_solver.
Qed.

Lemma ipDomain_adds (k : string) (ips : list string) :
  forall acc,
    let acc' := fold_left (ipDomain_add k) ips acc in
    (covered acc -> covered acc') /\
    forall b h, h ∈ hosts_of (fst acc') b
                <-> h ∈ hosts_of (fst acc) b \/ (h = k /\ b ∈ ips).
Proof.
  induction ips as [| a ips IH]; intros acc; cbn [fold_left].
  - split; [auto |]. intros b h. set_solver.
  - destruct (IH (ipDomain_add k acc a)) as [C R]. split.
    + intros Hc. apply C, ipDomain_add_covered, Hc.
    + intros b h. rewrite R, ipDomain_add_hosts. set_solver.
Qed.

Lemma ipDomain_scan_spec acc (kv : string * string) :
  let acc' := ipDomain_scan X acc kv in
  (covered acc -> covered acc') /\
  forall b h, h ∈ hosts_of (fst acc') b
              <-> h ∈ hosts_of (fst acc) b \/ (h = fst kv /\ b ∈ entry_A X (snd kv)).
Proof.
  unfold ipDomain_scan, entry_A.
  destruct (jsonUnmarshal X (snd kv)) as [d |].
  - apply ipDomain_adds.
  - split; [auto |]. intros b h. set_solver.
Qed.

Lemma ipDomain_scans (entries : list (string * string)) :
  forall acc,
    let acc' := fold_left (ipDomain_scan X) entries acc in
    (covered acc -> covered acc') /\
    forall b h, h ∈ hosts_of (fst acc') b
                <-> h ∈ hosts_of (fst acc) b
                    \/ exists v, (h, v) ∈ entries /\ b ∈ entry_A X v.
Proof.
  induction entries as [| [k v] entries IH]; intros acc; cbn [fold_left].
  - split; [auto |]. intros b h. split; [auto |].
    intros [H | (v & Hv & _)]; [exact H | inversion Hv].
  - destruct (IH (ipDomain_scan X acc (k, v))) as [C R].
    destruct (ipDomain_scan_spec acc (k, v)) as [C1 R1]. split.
    + intros Hc. apply C, C1, Hc.
    + intros b h. rewrite R, R1. cbn [fst snd]. split.
      * intros [[H | [-> H]] | (w & Hw & Hb)]; eauto.
        -- right. exists v. split; [left | exact H].
        -- right. exists w. split; [now right | exact Hb].
      * intros [H | (w & Hw & Hb)]; [auto |].
        apply elem_of_cons in Hw as [[= -> ->] | Hw]; eauto.
Qed.

(** After the first scan, a host is filed under an address exactly when
    the address is a stored A record of the host, and every address that
    has hosts is in the list of addresses. *)
Lemma group_by_ip_spec (r : Runner) :
  let ipDomain := fst (group_by_ip X (hm r)) in
  let listIPs := snd (group_by_ip X (hm r)) in
  forall a h,
    (h ∈ hosts_of ipDomain a <-> a ∈ stored_A X r h) /\
    (h ∈ hosts_of ipDomain a -> a ∈ listIPs).
Proof.
  intros ipDomain listIPs a h.
  destruct (ipDomain_scans (Scan (hm r)) (∅, [])) as [C R].
  fold (group_by_ip X (hm r)) in C, R. split.
  - unfold ipDomain. rewrite R. cbn [fst]. unfold hosts_of at 1.
    rewrite lookup_empty. cbn [default]. unfold stored_A, Scan. split.
    + intros [H | (v & Hv & Hb)]; [set_solver |].
      apply elem_of_map_to_list in Hv. now rewrite Hv.
    + intros H. right. destruct (hm r !! h) as [v |] eqn:E; [| inversion H].
      exists v. split; [now apply elem_of_map_to_list | exact H].
  - intros H. apply C.
    + intros b [s Hs]. cbn [fst] in Hs. rewrite lookup_empty in Hs. discriminate.
    + eapply hosts_of_is_Some, H.
Qed.
End Grouping.

(** ** The final emission pass *)

Lemma wrap_int_succ (z : Z) : wrap_int (wrap_int z + 1) = wrap_int (z + 1).
Proof.
  unfold wrap_int. f_equal.
  replace ((z + 2 ^ 63) mod 2 ^ 64 - 2 ^ 63 + 1 + 2 ^ 63)
    with ((z + 2 ^ 63) mod 2 ^ 64 + 1) by lia.
  rewrite Z.add_mod_idemp_l by lia. f_equal. lia.
Qed.

Lemma fold_left_flat_map {A B C : Type} (f : A -> B -> A) (g : C -> list B)
    (l : list C) :
  forall a, fold_left (fun st x => fold_left f (g x) st) l a
            = fold_left f (flat_map g l) a.
Proof.
  induction l as [| x l IH]; intros a; [reflexivity |].
  cbn [fold_left flat_map]. now rewrite fold_left_app, IH.
Qed.

Section Emission.
Variable X : Externals.
Variable r : Runner.

Lemma emit_host_keeps (st : EmitState) (h : string) :
  keeps r h = true -> emit_host X r st h = emit X r st h.
Proof.
  unfold keeps, emit_host. destruct (String.eqb h (WildcardDomain (options r)));
    [reflexivity |]. cbn [orb]. now intros ->.
Qed.

Lemma emit_host_drops (st : EmitState) (h : string) :
  keeps r h = false ->
  emit_host X r st h
  = if bool_decide (h ∈ seenRemovedSubdomains st) then st
    else mkEmitState (seen st) ({[h]} ∪ seenRemovedSubdomains st)
           (wrap_int (numRemovedSubdomains st + 1)) (outputchan st) (emitted st).
Proof.
  unfold keeps, emit_host. destruct (String.eqb h (WildcardDomain (options r)));
    [discriminate |]. cbn [orb]. now intros ->.
Qed.

Lemma pass_inv_init : pass_inv X r [] (mkEmitState ∅ ∅ 0 [] []).
Proof.
  unfold pass_inv. cbn. repeat split; try set_solver. constructor.
Qed.

(** Visiting [h] leaves a class of hosts as it is when [h] is outside the
    class or already recorded, and extends it by [h] otherwise. *)
Lemma class_same (l0 : list string) (h : string) (P : string -> Prop)
    (b : bool) :
  (forall x, P x <-> x ∈ l0 /\ keeps r x = b) ->
  (keeps r h = b -> P h) ->
  forall x, P x <-> x ∈ l0 ++ [h] /\ keeps r x = b.
Proof.
  intros Hp Hh x. rewrite Hp, elem_of_app, list_elem_of_singleton.
  split; [tauto |]. intros [[? | ->] Hk]; [auto |]. now apply Hp, Hh.
Qed.

Lemma class_more (l0 : list string) (h : string) (P Q : string -> Prop)
    (b : bool) :
  (forall x, P x <-> x ∈ l0 /\ keeps r x = b) ->
  keeps r h = b ->
  (forall x, Q x <-> P x \/ x = h) ->
  forall x, Q x <-> x ∈ l0 ++ [h] /\ keeps r x = b.
Proof.
  intros Hp Hk Hq x. rewrite Hq, Hp, elem_of_app, list_elem_of_singleton.
  split; [intros [[? ?] | ->]; auto | intros [[? | ->] ?]; auto].
Qed.

Lemma pass_inv_step (l0 : list string) (st : EmitState) (h : string) :
  pass_inv X r l0 st -> pass_inv X r (l0 ++ [h]) (emit_host X r st h).
Proof.
  intros (E & R & N & S & O & C).
  destruct (keeps r h) eqn:K.
  - rewrite emit_host_keeps by exact K. unfold emit.
    case_bool_decide as Hs; unfold pass_inv;
      cbn [emitted seen seenRemovedSubdomains outputchan numRemovedSubdomains].
    + split; [| split; [| split; [| split; [| split]]]]; auto.
      * apply (class_same l0 h (fun x => x ∈ emitted st) true E).
        intros _. apply S, Hs.
      * apply (class_same l0 h (fun x => x ∈ seenRemovedSubdomains st) false R).
        congruence.
    + split; [| split; [| split; [| split; [| split]]]]; auto.
      * apply (class_more l0 h (fun x => x ∈ emitted st)
                 (fun x => x ∈ emitted st ++ [h]) true E K).
        intros x. rewrite elem_of_app, list_elem_of_singleton. tauto.
      * apply (class_same l0 h (fun x => x ∈ seenRemovedSubdomains st) false R).
        congruence.
      * apply NoDup_app. split; [exact N |]. split; [| apply NoDup_singleton].
        intros x Hx Hx'. apply list_elem_of_singleton in Hx'. subst.
        apply Hs, S, Hx.
      * intros h'. rewrite elem_of_union, elem_of_singleton, elem_of_app,
          list_elem_of_singleton, S. tauto.
      * rewrite flat_map_app, O. cbn [flat_map]. now rewrite app_nil_r.
  - rewrite emit_host_drops by exact K.
    case_bool_decide as Hs; unfold pass_inv;
      cbn [emitted seen seenRemovedSubdomains outputchan numRemovedSubdomains].
    + split; [| split; [| split; [| split; [| split]]]]; auto.
      * apply (class_same l0 h (fun x => x ∈ emitted st) true E). congruence.
      * apply (class_same l0 h (fun x => x ∈ seenRemovedSubdomains st) false R).
        intros _. exact Hs.
    + split; [| split; [| split; [| split; [| split]]]]; auto.
      * apply (class_same l0 h (fun x => x ∈ emitted st) true E). congruence.
      * apply (class_more l0 h (fun x => x ∈ seenRemovedSubdomains st)
                 (fun x => x ∈ {[h]} ∪ seenRemovedSubdomains st) false R K).
        intros x. rewrite elem_of_union, elem_of_singleton. tauto.
      * rewrite C, wrap_int_succ. f_equal.
        rewrite size_union by set_solver. rewrite size_singleton. lia.
Qed.

Lemma pass_inv_fold (l : list string) :
  forall l0 st,
    pass_inv X r l0 st ->
    pass_inv X r (l0 ++ l) (fold_left (emit_host X r) l st).
Proof.
  induction l as [| h l IH]; intros l0 st I; cbn [fold_left].
  - now rewrite app_nil_r.
  - replace (l0 ++ h :: l) with ((l0 ++ [h]) ++ l) by now rewrite <- app_assoc.
    apply IH, pass_inv_step, I.
Qed.

Variable ord : RangeOrder.
Hypothesis ord_enumerates : enumerates ord.

(** The hosts the final loop visits are the hosts with a stored A
    record. *)
Lemma visited_spec (h : string) :
  h ∈ visited X ord r <-> stored_A X r h <> [].
Proof.
  unfold visited. rewrite list_elem_of_In, in_flat_map. split.
  - intros (a & _ & Hh). apply list_elem_of_In in Hh.
    rewrite (ord_enumerates a _) in Hh. apply elem_of_elements in Hh.
    destruct (group_by_ip_spec X r a h) as [G _]. apply G in Hh.
    intros E. rewrite E in Hh. inversion Hh.
  - intros Hne. destruct (stored_A X r h) as [| a rest] eqn:E; [congruence |].
    destruct (group_by_ip_spec X r a h) as [G L].
    assert (Hh : h ∈ hosts_of (fst (group_by_ip X (hm r))) a).
    { apply G. rewrite E. left. }
    exists a. split.
    + apply list_elem_of_In, L, Hh.
    + apply list_elem_of_In. rewrite (ord_enumerates a _).
      now apply elem_of_elements.
Qed.

Lemma final_pass_inv : pass_inv X r (visited X ord r) (final_pass X ord r).
Proof.
  unfold final_pass, visited.
  destruct (group_by_ip X (hm r)) as [ipDomain listIPs]. cbn [fst snd].
  unfold emission_pass. rewrite fold_left_flat_map.
  apply (pass_inv_fold _ []), pass_inv_init.
Qed.

(** A host is handed to the output once if it has a stored A record and
    is kept, and never otherwise. *)
Lemma final_pass_times (h : string) :
  times (emitted (final_pass X ord r)) h
  = if (has_records (stored_A X r h) && keeps r h)%bool then 1%nat else 0%nat.
Proof.
  destruct final_pass_inv as (E & _ & N & _).
  unfold times.
  destruct (has_records (stored_A X r h) && keeps r h)%bool eqn:B.
  - apply andb_true_iff in B as [B K].
    apply NoDup_count_occ'; [now apply NoDup_ListNoDup |].
    apply list_elem_of_In, E.
    split; [| exact K]. apply visited_spec. now destruct (stored_A X r h).
  - apply count_occ_not_In. rewrite <- list_elem_of_In, E, visited_spec.
    intros [V K]. rewrite K, andb_true_r in B.
    destruct (stored_A X r h); [congruence | discriminate].
Qed.
End Emission.

Lemma stubOrder_enumerates : enumerates stubOrder.
Proof. intros a s. reflexivity. Defined.

Lemma lookupAndOutput_plain (X : Externals) (r : Runner) (l : list string) :
  JSON (options r) = false -> flat_map (lookupAndOutput X r) l = l.
Proof.
  intros J. induction l as [| h l IH]; [reflexivity |].
  cbn [flat_map]. unfold lookupAndOutput at 1. rewrite J, IH. reflexivity.
Qed.

(** C1, as stated, fails: [b.example.com] is in the Work Set and not in the
    Wildcard Root Set, and the final pass never emits it, because it has no
    stored A record. *)
Lemma final_pass_skips_unresolved_host :
  hm wildRunner !! "b.example.com" = Some "" /\
  ("b.example.com" ∉ wildcards wildRunner) /\
  emitted (final_pass stubX stubOrder wildRunner)
    = ["example.com"; "a.example.com"] /\
  times (emitted (final_pass stubX stubOrder wildRunner)) "b.example.com" = 0%nat.
Proof.
  split; [reflexivity |]. split.
  - apply (bool_decide_eq_false_1 _). vm_compute. reflexivity.
  - split; vm_compute; reflexivity.
Qed.

(** C1 (amended): in the final pass of a wildcard-enabled run, every host
    with at least one stored A record that is not in the Wildcard Root Set
    is emitted exactly once; every host in the Wildcard Root Set other than
    the configured wildcard domain is emitted zero times; the configured
    wildcard domain is emitted exactly once when it has a stored A record,
    also when it is in the Wildcard Root Set.  The output channel receives
    what [lookupAndOutput] sends for the emitted hosts in order: outside
    JSON mode, the hosts themselves. *)
Theorem final_pass_emission (X : Externals) (ord : RangeOrder) (r : Runner)
    (host : string) :
  enumerates ord ->
  (stored_A X r host <> [] -> host ∉ wildcards r ->
   times (emitted (final_pass X ord r)) host = 1%nat) /\
  (host ∈ wildcards r -> host <> WildcardDomain (options r) ->
   times (emitted (final_pass X ord r)) host = 0%nat) /\
  (stored_A X r host <> [] -> host = WildcardDomain (options r) ->
   times (emitted (final_pass X ord r)) host = 1%nat) /\
  outputchan (final_pass X ord r)
    = flat_map (lookupAndOutput X r) (emitted (final_pass X ord r)) /\
  (JSON (options r) = false ->
   outputchan (final_pass X ord r) = emitted (final_pass X ord r)).
Proof.
  intros Ho. pose proof (final_pass_times X r ord Ho host) as T.
  destruct (final_pass_inv X r ord) as (_ & _ & _ & _ & O & _).
  assert (HA : stored_A X r host <> [] -> has_records (stored_A X r host) = true).
  { destruct (stored_A X r host); [congruence | reflexivity]. }
  split; [| split; [| split; [| split]]].
  - intros Hs Hw. rewrite T, (HA Hs). unfold keeps.
    rewrite bool_decide_eq_false_2 by exact Hw. now rewrite orb_true_r.
  - intros Hw Hr. rewrite T. unfold keeps.
    apply String.eqb_neq in Hr. rewrite Hr.
    rewrite bool_decide_eq_true_2 by exact Hw. now rewrite andb_false_r.
  - intros Hs Hr. rewrite T, (HA Hs). unfold keeps.
    apply String.eqb_eq in Hr. now rewrite Hr.
  - exact O.
  - intros J. rewrite O. now apply lookupAndOutput_plain.
Qed.

Lemma final_pass_emission_witness :
  enumerates stubOrder /\
  (stored_A stubX wildRunner "example.com" <> [] ->
   "example.com" = WildcardDomain (options wildRunner) ->
   times (emitted (final_pass stubX stubOrder wildRunner)) "example.com" = 1%nat) /\
  times (emitted (final_pass stubX stubOrder wildRunner)) "a.example.com" = 1%nat /\
  times (emitted (final_pass stubX stubOrder wildRunner)) "w.example.com" = 0%nat.
Proof.
  pose proof (final_pass_emission stubX stubOrder wildRunner "example.com"
                stubOrder_enumerates) as (_ & _ & D & _).
  pose proof (final_pass_emission stubX stubOrder wildRunner "a.example.com"
                stubOrder_enumerates) as (A & _).
  pose proof (final_pass_emission stubX stubOrder wildRunner "w.example.com"
                stubOrder_enumerates) as (_ & W & _).
  split; [exact stubOrder_enumerates |]. split; [exact D |]. split.
  - apply A; [discriminate |].
    apply (bool_decide_eq_false_1 _). vm_compute. reflexivity.
  - apply W; [| discriminate].
    apply (bool_decide_eq_true_1 _). vm_compute. reflexivity.
Defined.

(** C10: in the final pass of a wildcard-enabled run a host is emitted only
    if its stored Work Set value decodes to DNS data with at least one A
    record; a host whose stored answer has no A record (an answer with other
    records only, or the empty value of a host that was never resolved) is
    emitted zero times and is not counted among the removed wildcard
    subdomains, the count being the number of hosts recorded as removed. *)
Theorem final_pass_needs_A_record (X : Externals) (ord : RangeOrder)
    (r : Runner) (host : string) :
  enumerates ord ->
  (host ∈ emitted (final_pass X ord r) ->
   exists v dnsdata,
     hm r !! host = Some v /\ jsonUnmarshal X v = Some dnsdata /\
     dA dnsdata <> []) /\
  (stored_A X r host = [] ->
   times (emitted (final_pass X ord r)) host = 0%nat /\
   host ∉ seenRemovedSubdomains (final_pass X ord r)) /\
  numRemovedSubdomains (final_pass X ord r)
    = wrap_int (Z.of_nat (size (seenRemovedSubdomains (final_pass X ord r)))).
Proof.
  intros Ho. destruct (final_pass_inv X r ord) as (E & R & _ & _ & _ & C).
  split; [| split; [| exact C]].
  - intros He. apply E in He as [V _]. apply (visited_spec X r ord Ho) in V.
    unfold stored_A in V. destruct (hm r !! host) as [v |]; [| congruence].
    destruct (jsonUnmarshal X v) as [d |] eqn:J; [| congruence].
    exists v, d. auto.
  - intros Hs. split.
    + rewrite (final_pass_times X r ord Ho), Hs. reflexivity.
    + intros Hr. apply R in Hr as [V _]. now apply (visited_spec X r ord Ho) in V.
Qed.

Lemma final_pass_needs_A_record_witness :
  enumerates stubOrder /\
  stored_A stubX wildRunner "c.example.com" = [] /\
  times (emitted (final_pass stubX stubOrder wildRunner)) "c.example.com" = 0%nat /\
  ("c.example.com" ∉ seenRemovedSubdomains (final_pass stubX stubOrder wildRunner)) /\
  numRemovedSubdomains (final_pass stubX stubOrder wildRunner) = 1.
Proof.
  pose proof (final_pass_needs_A_record stubX stubOrder wildRunner "c.example.com"
                stubOrder_enumerates) as (_ & Z0 & _).
  split; [exact stubOrder_enumerates |]. split; [reflexivity |].
  split; [apply Z0; reflexivity |]. split; [apply Z0; reflexivity |].
  vm_compute. reflexivity.
Defined.

(** * Further properties of the runner *)

(** ** Insertion into the Work Set *)

Lemma addHost_lookup (m : gmap string string) (n : Z) (host h : string) :
  fst (addHost (m, n) host) !! h
  = match m !! h with
    | Some v => Some v
    | None => if bool_decide (h = host) then Some "" else None
    end.
Proof.
  cbn [addHost]. destruct (m !! host) as [v |] eqn:E; cbn [fst].
  - destruct (m !! h) eqn:Eh; [reflexivity |].
    case_bool_decide; [congruence | reflexivity].
  - rewrite lookup_insert. case_decide as D; case_bool_decide as B; subst;
      try congruence.
    + now rewrite E.
    + now destruct (m !! h).
Qed.

Lemma addHosts_lookup (hosts : list string) :
  forall (m : gmap string string) (n : Z) (h : string),
    fst (fold_left addHost hosts (m, n)) !! h
    = match m !! h with
      | Some v => Some v
      | None => if bool_decide (h ∈ hosts) then Some "" else None
      end.
Proof.
  induction hosts as [| host hosts IH]; intros m n h; cbn [fold_left].
  - cbn [fst]. destruct (m !! h); [reflexivity |].
    rewrite bool_decide_eq_false_2; [reflexivity | apply not_elem_of_nil].
  - pose proof (addHost_lookup m n host h) as L.
    destruct (addHost (m, n) host) as [m' n']. cbn [fst] in L.
    rewrite IH, L. destruct (m !! h); [reflexivity |].
    case_bool_decide as B.
    + subst. rewrite bool_decide_eq_true_2; [reflexivity | left].
    + destruct (bool_decide (h ∈ hosts)) eqn:Bh.
      * apply bool_decide_eq_true_1 in Bh.
        rewrite bool_decide_eq_true_2; [reflexivity | now right].
      * apply bool_decide_eq_false_1 in Bh.
        rewrite bool_decide_eq_false_2; [reflexivity |].
        rewrite elem_of_cons. tauto.
Qed.

Lemma addHosts_counts (hosts : list string) :
  forall (m : gmap string string) (n : Z),
    snd (fold_left addHost hosts (m, n))
    = n + (Z.of_nat (size (fst (fold_left addHost hosts (m, n))))
           - Z.of_nat (size m)).
Proof.
  induction hosts as [| host hosts IH]; intros m n; cbn [fold_left].
  - cbn. lia.
  - cbn [addHost]. destruct (m !! host) eqn:E.
    + apply IH.
    + rewrite IH. rewrite map_size_insert_None by exact E. lia.
Qed.

(** X1: [addHostsToHMapFromList] is insert-if-absent: an entry that is
    already in the Work Set keeps its value, a listed host that is absent is
    queued with the empty value, nothing else is added, and the number
    returned is the growth of the Work Set. *)
Theorem addHostsToHMapFromList_spec (m : gmap string string)
    (hosts : list string) (h : string) :
  fst (addHostsToHMapFromList m hosts) !! h
  = match m !! h with
    | Some v => Some v
    | None => if bool_decide (h ∈ hosts) then Some "" else None
    end /\
  snd (addHostsToHMapFromList m hosts)
  = Z.of_nat (size (fst (addHostsToHMapFromList m hosts))) - Z.of_nat (size m).
Proof.
  unfold addHostsToHMapFromList. split.
  - apply addHosts_lookup.
  - rewrite addHosts_counts. lia.
Qed.

Lemma addHosts_present (hosts : list string) :
  forall (m : gmap string string) (n : Z),
    (forall h, h ∈ hosts -> is_Some (m !! h)) ->
    fold_left addHost hosts (m, n) = (m, n).
Proof.
  induction hosts as [| host hosts IH]; intros m n P; [reflexivity |].
  cbn [fold_left addHost]. destruct (P host) as [v ->]; [left |].
  apply IH. intros h Hh. apply P. now right.
Qed.

(** X2: adding the same hosts a second time changes nothing and reports
    zero new hosts. *)
Theorem addHostsToHMapFromList_twice (m : gmap string string)
    (hosts : list string) :
  addHostsToHMapFromList (fst (addHostsToHMapFromList m hosts)) hosts
  = (fst (addHostsToHMapFromList m hosts), 0).
Proof.
  unfold addHostsToHMapFromList at 1. apply addHosts_present.
  intros h Hh. unfold addHostsToHMapFromList. rewrite addHosts_lookup.
  destruct (m !! h); [eauto |].
  rewrite bool_decide_eq_true_2 by exact Hh. eauto.
Qed.

(** ** Expansion of one input line *)

Lemma addHosts_dom (m : gmap string string) (hosts : list string) :
  dom (fst (addHostsToHMapFromList m hosts)) = list_to_set hosts ∪ dom m.
Proof.
  apply set_eq. intros h.
  rewrite elem_of_union, elem_of_list_to_set, !elem_of_dom.
  unfold addHostsToHMapFromList. rewrite addHosts_lookup.
  destruct (m !! h) as [v |].
  - split; [intros _; right; eauto | eauto].
  - case_bool_decide as B.
    + split; [intros _; now left | eauto].
    + split; [intros [? [=]] | intros [? | [? [=]]]; tauto].
Qed.

Lemma addHosts_keeps (m : gmap string string) (hosts : list string)
    (h v : string) :
  m !! h = Some v -> fst (addHostsToHMapFromList m hosts) !! h = Some v.
Proof.
  intros E. unfold addHostsToHMapFromList. now rewrite addHosts_lookup, E.
Qed.

(** X3: with a wordlist configured, a line without the FUZZ token adds
    exactly the hosts [word.line], one for each word (the word and the line
    trimmed), whatever the line is: a CIDR block or an ASN is prefixed like
    a host and not expanded.  Entries already in the Work Set are kept. *)
Theorem expand_item_wordlist `{SL : GoStringsLib} (os : OS) (o : Options) (tmp : string)
    (m : gmap string string) (n : Z) (line : string) (words : list string) :
  Contains (normalize line) "FUZZ" = false ->
  WordList o <> "" ->
  preProcessArgument os tmp (WordList o) = Ok words ->
  exists m' k,
    expand_item os o tmp (m, n) line = Ok (m', n + k) /\
    dom m' = list_to_set
               (map (fun w => TrimSpace w +:+ "." +:+ TrimSpace line) words)
             ∪ dom m /\
    (forall h v, m !! h = Some v -> m' !! h = Some v).
Proof.
  intros F W P. unfold expand_item. rewrite F.
  assert (nonempty (WordList o) = true) as ->.
  { unfold nonempty. now apply negb_true_iff, String.eqb_neq. }
  rewrite P. cbn. unfold normalize.
  set (hosts := map (fun prefix => TrimSpace prefix +:+ "." +:+ TrimSpace line) words).
  pose proof (addHosts_dom m hosts) as D.
  pose proof (addHosts_keeps m hosts) as K.
  destruct (addHostsToHMapFromList m hosts) as [m' k]. cbn [fst] in D, K.
  exists m', k. auto.
Qed.

(** X4: a line that contains the FUZZ token adds exactly the hosts obtained
    by replacing the token with each word of the wordlist; the wordlist is
    not used as a prefix list for such a line. *)
Theorem expand_item_fuzz `{SL : GoStringsLib} (os : OS) (o : Options) (tmp : string)
    (m : gmap string string) (n : Z) (line : string) (words : list string) :
  Contains (normalize line) "FUZZ" = true ->
  preProcessArgument os tmp (WordList o) = Ok words ->
  exists m' k,
    expand_item os o tmp (m, n) line = Ok (m', n + k) /\
    dom m' = list_to_set
               (map (fun w => ReplaceAll (TrimSpace line) "FUZZ" w) words)
             ∪ dom m /\
    (forall h v, m !! h = Some v -> m' !! h = Some v).
Proof.
  intros F P. unfold expand_item. rewrite F, P. cbn. unfold normalize.
  set (hosts := map (fun w => ReplaceAll (TrimSpace line) "FUZZ" w) words).
  pose proof (addHosts_dom m hosts) as D.
  pose proof (addHosts_keeps m hosts) as K.
  destruct (addHostsToHMapFromList m hosts) as [m' k]. cbn [fst] in D, K.
  exists m', k. auto.
Qed.

Lemma expand_items_app `{SL : GoStringsLib} (os : OS) (o : Options) (tmp : string)
    (pre post : list string) :
  forall acc,
    expand_items os o tmp acc (pre ++ post)
    = match expand_items os o tmp acc pre with
      | Ok acc' => expand_items os o tmp acc' post
      | Err e => Err e
      end.
Proof.
  induction pre as [| line pre IH]; intros acc; [reflexivity |].
  cbn [app expand_items]. destruct (expand_item os o tmp acc line) as [acc' | e];
    cbn; [apply IH | reflexivity].
Qed.

(** X5: a FUZZ pattern in the input without any wordlist makes
    [prepareInput] fail with the empty-argument error, after the plain lines
    before it were accepted; no Work Set is returned. *)
Theorem prepareInput_fuzz_without_wordlist `{SL : GoStringsLib} (os os' : OS) (r : Runner)
    (tmp : string) (pre post : list string) (line : string) :
  copy_stdin os = Ok (os', tmp) ->
  input_lines os' (options r) tmp = Ok (pre ++ line :: post) ->
  WordList (options r) = "" ->
  FileExists os' "" = false ->
  argumentHasStdin os' "" = false ->
  Forall (plain_line os') pre ->
  Contains (normalize line) "FUZZ" = true ->
  prepareInput os r = Err ErrEmptyArgument.
Proof.
  intros Hc Hi W Fe As P F. unfold prepareInput. rewrite Hc. cbn. rewrite Hi. cbn.
  rewrite expand_items_app, (expand_items_plain _ _ _ _ W P).
  cbn [expand_items]. unfold expand_item.
  destruct (fold_left addHost (map TrimSpace pre) (hm r, 0)) as [m n].
  rewrite F. unfold preProcessArgument. rewrite W, Fe, As. reflexivity.
Qed.

Lemma expand_item_wordlist_witness :
  Contains (normalize " example.com ") "FUZZ" = false /\
  WordList wordlistOptions <> "" /\
  preProcessArgument wordOS "" (WordList wordlistOptions) = Ok ["www"; " api "] /\
  exists m' k,
    expand_item wordOS wordlistOptions "" (∅, 0) " example.com " = Ok (m', 0 + k) /\
    dom m' = list_to_set
               (map (fun w => TrimSpace w +:+ "." +:+ TrimSpace " example.com ")
                  ["www"; " api "])
             ∪ dom (∅ : gmap string string) /\
    (forall h v, (∅ : gmap string string) !! h = Some v -> m' !! h = Some v).
Proof.
  split; [reflexivity |]. split; [discriminate |]. split; [reflexivity |].
  apply (expand_item_wordlist wordOS wordlistOptions "" ∅ 0 " example.com "
           ["www"; " api "]); [reflexivity | discriminate | reflexivity].
Defined.

Lemma expand_item_fuzz_witness :
  Contains (normalize "FUZZ.example.com") "FUZZ" = true /\
  preProcessArgument wordOS "" (WordList wordlistOptions) = Ok ["www"; " api "] /\
  exists m' k,
    expand_item wordOS wordlistOptions "" (∅, 0) "FUZZ.example.com"
      = Ok (m', 0 + k) /\
    dom m' = list_to_set
               (map (fun w => ReplaceAll (TrimSpace "FUZZ.example.com") "FUZZ" w)
                  ["www"; " api "])
             ∪ dom (∅ : gmap string string) /\
    (forall h v, (∅ : gmap string string) !! h = Some v -> m' !! h = Some v).
Proof.
  split; [reflexivity |]. split; [reflexivity |].
  apply (expand_item_fuzz wordOS wordlistOptions "" ∅ 0 "FUZZ.example.com"
           ["www"; " api "]); reflexivity.
Defined.

Lemma prepareInput_fuzz_without_wordlist_witness :
  copy_stdin (stubOS ["a.test"; "FUZZ.example.com"; "b.test"])
    = Ok (stubOS ["a.test"; "FUZZ.example.com"; "b.test"], "") /\
  Contains (normalize "FUZZ.example.com") "FUZZ" = true /\
  prepareInput (stubOS ["a.test"; "FUZZ.example.com"; "b.test"]) plainRunner
    = Err ErrEmptyArgument.
Proof.
  split; [reflexivity |]. split; [reflexivity |].
  apply (prepareInput_fuzz_without_wordlist
           (stubOS ["a.test"; "FUZZ.example.com"; "b.test"])
           (stubOS ["a.test"; "FUZZ.example.com"; "b.test"]) plainRunner ""
           ["a.test"] ["b.test"] "FUZZ.example.com");
    try reflexivity.
  repeat constructor.
Defined.

(** ** The input worker without and across resumes *)

Lemma InputWorker_scan_requests (r : Runner) (entries : list (string * string)) :
  forall st,
    requests (InputWorker_scan r entries st)
    = requests st
      + if ShowStatistics (options r)
        then Z.of_nat (List.length entries)
             * Z.of_nat (List.length (dnsxQuestionTypes r))
        else 0.
Proof.
  unfold InputWorker_scan.
  induction entries as [| kv entries IH]; intros st; cbn [fold_left List.length].
  - destruct (ShowStatistics (options r)); lia.
  - rewrite IH. unfold InputWorker_item.
    destruct (inResume st) as [c |];
      [destruct (_ <=? _) |]; cbn [requests];
      destruct (ShowStatistics (options r)); lia.
Qed.

Lemma InputWorker_scan_fresh (r : Runner) (entries : list (string * string)) :
  forall req chan,
    workerchan (InputWorker_scan r entries (mkInputState None req chan))
    = chan ++ map fst entries.
Proof.
  unfold InputWorker_scan.
  induction entries as [| kv entries IH]; intros req chan; cbn [fold_left map].
  - now rewrite app_nil_r.
  - unfold InputWorker_item at 2. cbn [inResume workerchan].
    rewrite IH, <- app_assoc. reflexivity.
Qed.

(** X6: without a resume configuration the input worker pushes every host of
    the Work Set exactly once, in scan order, and with statistics enabled the
    request counter ends at the number of hosts times the number of question
    types. *)
Theorem InputWorker_pushes_every_host (r : Runner) :
  resumeCfg (options r) = None ->
  workerchan (InputWorker r) = map fst (Scan (hm r)) /\
  NoDup (workerchan (InputWorker r)) /\
  (forall h, h ∈ workerchan (InputWorker r) <-> is_Some (hm r !! h)) /\
  requests (InputWorker r)
  = if ShowStatistics (options r)
    then Z.of_nat (size (hm r)) * Z.of_nat (List.length (dnsxQuestionTypes r))
    else 0.
Proof.
  intros Hn.
  assert (E : workerchan (InputWorker r) = map fst (Scan (hm r))).
  { unfold InputWorker. rewrite Hn, InputWorker_scan_fresh. reflexivity. }
  split; [exact E |]. split; [| split].
  - rewrite E. unfold Scan. apply (NoDup_fst_map_to_list (hm r)).
  - intros h. rewrite E. unfold Scan.
    change (map fst (map_to_list (hm r))) with ((map_to_list (hm r)).*1).
    rewrite list_elem_of_fmap. split.
    + intros ([k v] & -> & Hkv). apply elem_of_map_to_list in Hkv. eauto.
    + intros [v Hv]. exists (h, v). split; [reflexivity |].
      now apply elem_of_map_to_list.
  - unfold InputWorker. rewrite InputWorker_scan_requests. cbn [requests].
    unfold Scan. rewrite length_map_to_list. reflexivity.
Qed.

Lemma InputWorker_pushes_every_host_witness :
  resumeCfg (options plainRunner) = None /\
  workerchan (InputWorker (set_hm plainRunner (hm resumeRunner)))
    = map fst (Scan (hm resumeRunner)).
Proof.
  split; [reflexivity |].
  apply (InputWorker_pushes_every_host (set_hm plainRunner (hm resumeRunner))).
  reflexivity.
Defined.

Lemma last_cons_default {A : Type} (k d : A) (l : list A) :
  List.last (k :: l) d = List.last l k.
Proof.
  revert k d. induction l as [| x l IH]; intros k d; [reflexivity |].
  change (List.last (k :: x :: l) d) with (List.last (x :: l) d).
  now rewrite !IH.
Qed.

(** The cursor after a scan: the position has advanced by the number of
    entries visited and the running host is the last one visited. *)
Lemma InputWorker_scan_cursor (r : Runner) (entries : list (string * string)) :
  forall (c : ResumeCfg) (req : Z) (chan : list string),
    0 <= currentIndex c ->
    currentIndex c + Z.of_nat (List.length entries) < 2 ^ 63 ->
    exists c',
      inResume (InputWorker_scan r entries (mkInputState (Some c) req chan))
        = Some c' /\
      Index c' = Index c /\
      currentIndex c' = currentIndex c + Z.of_nat (List.length entries) /\
      current c' = List.last (map fst entries) (current c).
Proof.
  unfold InputWorker_scan.
  induction entries as [| [k v] entries IH]; intros c req chan Hc Hb.
  - exists c. cbn. repeat split; lia.
  - cbn [fold_left List.length map fst] in *. unfold InputWorker_item at 2.
    cbn [inResume fst currentIndex Index]. rewrite wrap_int_small by lia.
    rewrite last_cons_default.
    set (c1 := mkResumeCfg (Index c) (ResumeFrom c) k (currentIndex c + 1)).
    assert (H1 : 0 <= currentIndex c1) by (cbn; lia).
    assert (H2 : currentIndex c1 + Z.of_nat (List.length entries) < 2 ^ 63)
      by (cbn; lia).
    destruct (currentIndex c + 1 <=? Index c);
      edestruct (IH c1) as (c' & E & I & Ci & Cu); try eassumption;
      exists c'; (split; [exact E |]); cbn in I, Ci, Cu;
      repeat split; try assumption; lia.
Qed.

(** X7: a scan that is interrupted after [k] items and saved, then resumed
    from the saved file, pushes between the two runs every item from the
    original starting position on, each once and in scan order: the saved
    index is [k], the first run pushed the items up to [k], the second
    pushes the items after [k]. *)
Theorem resume_round_trip (r : Runner) (entries : list (string * string))
    (k : nat) (c0 : ResumeCfg) :
  currentIndex c0 = 0 ->
  0 <= Index c0 <= Z.of_nat k ->
  (k <= List.length entries)%nat ->
  Z.of_nat (List.length entries) < 2 ^ 63 ->
  exists saved,
    SaveResumeConfig
      (InputWorker_scan r (take k entries) (mkInputState (Some c0) 0 []))
      = Some saved /\
    Index saved = Z.of_nat k /\
    currentIndex saved = 0 /\
    workerchan
      (InputWorker_scan r (take k entries) (mkInputState (Some c0) 0 []))
    ++ workerchan (InputWorker_scan r entries (mkInputState (Some saved) 0 []))
    = drop (Z.to_nat (Index c0)) (map fst entries).
Proof.
  intros H0 HI Hk Hn.
  assert (Lt : List.length (take k entries) = k) by (rewrite length_take; lia).
  destruct (InputWorker_scan_cursor r (take k entries) c0 0 [])
    as (c' & E & I & Ci & Cu); [lia | lia |].
  unfold SaveResumeConfig. rewrite E.
  eexists. split; [reflexivity |]. cbn [Index currentIndex].
  split; [lia |]. split; [reflexivity |].
  rewrite !InputWorker_scan_pushes by (cbn [currentIndex]; lia).
  cbn [app Index currentIndex]. rewrite H0, Ci, H0, Lt, !Z.sub_0_r.
  replace (Z.to_nat (0 + Z.of_nat k)) with k by lia.
  assert (T : map fst (take k entries) = take k (map fst entries)).
  { clear. revert k. induction entries as [| e entries IH]; intros [| k];
      cbn; try reflexivity. now rewrite IH. }
  rewrite T.
  rewrite <- (take_drop k (map fst entries)) at 3.
  rewrite drop_app_le by (rewrite length_take, length_map; lia).
  reflexivity.
Qed.

Lemma resume_round_trip_witness :
  currentIndex (mkResumeCfg 0 "" "" 0) = 0 /\
  exists saved,
    SaveResumeConfig
      (InputWorker_scan resumeRunner (take 2 (Scan (hm resumeRunner)))
         (mkInputState (Some (mkResumeCfg 0 "" "" 0)) 0 []))
      = Some saved /\
    Index saved = Z.of_nat 2 /\
    currentIndex saved = 0 /\
    workerchan
      (InputWorker_scan resumeRunner (take 2 (Scan (hm resumeRunner)))
         (mkInputState (Some (mkResumeCfg 0 "" "" 0)) 0 []))
    ++ workerchan
         (InputWorker_scan resumeRunner (Scan (hm resumeRunner))
            (mkInputState (Some saved) 0 []))
    = drop (Z.to_nat (Index (mkResumeCfg 0 "" "" 0)))
        (map fst (Scan (hm resumeRunner))).
Proof.
  split; [reflexivity |].
  apply (resume_round_trip resumeRunner (Scan (hm resumeRunner)) 2
           (mkResumeCfg 0 "" "" 0)).
  - reflexivity.
  - cbn. lia.
  - vm_compute. lia.
  - vm_compute. reflexivity.
Defined.

(** ** The resolver worker over a whole channel *)

Lemma dispatch_wildcard `{SL : GoStringsLib} (X : Externals) (r : Runner) (domain : string)
    (rd : ResponseData) :
  nonempty (WildcardDomain (options r)) = true ->
  dispatch X r domain rd
  = match storeDNSData X r (rdDNS rd) with
    | Some m => Stored m
    | None => StoreFailed
    end.
Proof. intros W. unfold dispatch. now rewrite W. Qed.

Lemma dispatch_no_wildcard `{SL : GoStringsLib} (X : Externals) (r : Runner) (domain : string)
    (rd : ResponseData) :
  nonempty (WildcardDomain (options r)) = false ->
  dispatch X r domain rd = Filtered \/
  exists lines, dispatch X r domain rd = Emitted lines.
Proof.
  intros W. unfold dispatch. rewrite W.
  repeat case_match; eauto.
Qed.

Lemma worker_body_no_wildcard `{SL : GoStringsLib} (X : Externals) (r : Runner) (domain : string)
    (m : gmap string string) :
  nonempty (WildcardDomain (options r)) = false ->
  worker_body X r domain <> Stored m.
Proof.
  intros W. unfold worker_body.
  repeat case_match; try discriminate.
  destruct (dispatch_no_wildcard X r (target X domain) r0 W) as [E | [l E]];
    rewrite E; discriminate.
Qed.

Lemma worker_fold_no_wildcard `{SL : GoStringsLib} (X : Externals) (r : Runner)
    (chan : list string) :
  nonempty (WildcardDomain (options r)) = false ->
  forall out,
    fold_left (worker_step X) chan (r, out)
    = (r, out ++ flat_map (fun domain => lines_of (worker_body X r domain)) chan).
Proof.
  intros W. induction chan as [| domain chan IH]; intros out.
  - cbn. now rewrite app_nil_r.
  - cbn [fold_left flat_map]. unfold worker_step at 2.
    pose proof (worker_body_no_wildcard X r domain) as NS.
    destruct (worker_body X r domain) as [| | | | m | | | lines];
      cbn [lines_of]; rewrite ?IH, ?app_nil_l, ?app_assoc; try reflexivity.
    exfalso. now apply (NS m W).
Qed.

(** X8: without a wildcard domain a worker never writes to the Work Set,
    and what it sends to the output channel is the concatenation, in channel
    order, of the lines of each item taken alone. *)
Theorem worker_without_wildcard `{SL : GoStringsLib} (X : Externals) (r : Runner)
    (chan : list string) :
  WildcardDomain (options r) = "" ->
  worker X r chan
  = (r, flat_map (fun domain => lines_of (worker_body X r domain)) chan).
Proof.
  intros W. unfold worker. rewrite worker_fold_no_wildcard; [reflexivity |].
  now rewrite W.
Qed.

Lemma worker_without_wildcard_witness :
  WildcardDomain (options plainRunner) = "" /\
  worker stubX plainRunner ["a.test"; "nowhere.test"; "dual.test"]
  = (plainRunner, ["a.test"; "dual.test"]).
Proof.
  split; [reflexivity |].
  apply (worker_without_wildcard stubX plainRunner
           ["a.test"; "nowhere.test"; "dual.test"]).
  reflexivity.
Defined.

Lemma worker_step_wildcard `{SL : GoStringsLib} (X : Externals) (r : Runner) (out : list string)
    (domain : string) :
  nonempty (WildcardDomain (options r)) = true ->
  let st := worker_step X (r, out) domain in
  snd st = out /\
  options (fst st) = options r /\
  dnsxQuestionTypes (fst st) = dnsxQuestionTypes r /\
  wildcards (fst st) = wildcards r /\
  dom (hm r) ⊆ dom (hm (fst st)).
Proof.
  intros W. cbn [worker_step]. unfold worker_body.
  destruct (QueryMultiple X (target X domain)) as [d |]; [| cbn; set_solver].
  destruct (String.eqb (Host d) "" || TimestampIsZero d)%bool; [cbn; set_solver |].
  destruct (rcode_rejected (options r) d); [cbn; set_solver |].
  destruct (enrich X r (target X domain) d) as [rd |]; [| cbn; set_solver].
  rewrite (dispatch_wildcard X r _ rd W). unfold storeDNSData.
  destruct (dataJSON X (rdDNS rd)) as [data |]; cbn; [| set_solver].
  repeat split; try reflexivity. rewrite dom_insert_L. set_solver.
Qed.

(** X9: with a wildcard domain configured a worker sends nothing to the
    output channel; it only stores answers, and no host leaves the Work
    Set. *)
Theorem worker_with_wildcard `{SL : GoStringsLib} (X : Externals) (r : Runner)
    (chan : list string) :
  WildcardDomain (options r) <> "" ->
  snd (worker X r chan) = [] /\
  options (fst (worker X r chan)) = options r /\
  wildcards (fst (worker X r chan)) = wildcards r /\
  dom (hm r) ⊆ dom (hm (fst (worker X r chan))).
Proof.
  intros W. unfold worker.
  assert (G : forall chan r0 out,
             options r0 = options r ->
             let st := fold_left (worker_step X) chan (r0, out) in
             snd st = out /\ options (fst st) = options r /\
             wildcards (fst st) = wildcards r0 /\
             dom (hm r0) ⊆ dom (hm (fst st))).
  { clear chan. induction chan as [| domain chan IH]; intros r0 out Ho.
    - cbn. repeat split; auto.
    - cbn [fold_left].
      assert (W0 : nonempty (WildcardDomain (options r0)) = true).
      { rewrite Ho. unfold nonempty. now apply negb_true_iff, String.eqb_neq. }
      destruct (worker_step_wildcard X r0 out domain W0) as (S1 & O1 & _ & W1 & D1).
      destruct (worker_step X (r0, out) domain) as [r1 out1]. cbn [fst snd] in *.
      subst out1.
      destruct (IH r1 out (eq_trans O1 Ho)) as (S2 & O2 & W2 & D2).
      repeat split; auto; [congruence | set_solver]. }
  destruct (G chan r [] eq_refl) as (S & O & Wc & D). auto.
Qed.

Lemma worker_with_wildcard_witness :
  WildcardDomain (options wildRunner) <> "" /\
  snd (worker stubX wildRunner ["a.test"; "dual.test"]) = [] /\
  hm (fst (worker stubX wildRunner ["a.test"])) !! "a.test" = Some "192.0.2.1".
Proof.
  split; [discriminate |]. split.
  - apply (worker_with_wildcard stubX wildRunner ["a.test"; "dual.test"]).
    discriminate.
  - vm_compute. reflexivity.
Defined.

(** The enrichment stages leave the host name, the response code and the
    record lists of the answer as the resolver returned them. *)
Lemma enrich_keeps_answer (X : Externals) (r : Runner) (domain : string)
    (d : DNSData) (rd : ResponseData) :
  enrich X r domain d = Some rd ->
  Host (rdDNS rd) = Host d /\
  dA (rdDNS rd) = dA d /\
  StatusCodeRaw (rdDNS rd) = StatusCodeRaw d /\
  HostsFile (rdDNS rd) = HostsFile d.
Proof.
  unfold enrich, axfr_stage, trace_stage, cdn_stage, asn_stage.
  intros E. repeat case_match; simplify_eq; cbn; auto.
Qed.

(** X10: with a wildcard domain configured, an answer that passes the gates
    is stored under the host name the resolver reports, with the A records
    it returned, and every other entry of the Work Set is left as it was;
    when the answer cannot be serialised nothing is stored. *)
Theorem worker_stores_answer `{SL : GoStringsLib} (X : Externals) (r : Runner) (domain : string)
    (d : DNSData) (rd : ResponseData) :
  WildcardDomain (options r) <> "" ->
  QueryMultiple X (target X domain) = Some d ->
  Host d <> "" ->
  TimestampIsZero d = false ->
  rcode_rejected (options r) d = false ->
  enrich X r (target X domain) d = Some rd ->
  Host (rdDNS rd) = Host d /\
  dA (rdDNS rd) = dA d /\
  worker_body X r domain
  = match dataJSON X (rdDNS rd) with
    | Some data => Stored (<[Host d := data]> (hm r))
    | None => StoreFailed
    end /\
  forall m h, worker_body X r domain = Stored m -> h <> Host d ->
              m !! h = hm r !! h.
Proof.
  intros W Q H T R E.
  destruct (enrich_keeps_answer X r _ d rd E) as (EH & EA & _).
  assert (B : worker_body X r domain
              = match dataJSON X (rdDNS rd) with
                | Some data => Stored (<[Host d := data]> (hm r))
                | None => StoreFailed
                end).
  { unfold worker_body. rewrite Q, T, R, E.
    apply String.eqb_neq in H. rewrite H. cbn [orb].
    rewrite dispatch_wildcard
      by (unfold nonempty; now apply negb_true_iff, String.eqb_neq).
    unfold storeDNSData. rewrite EH.
    now destruct (dataJSON X (rdDNS rd)). }
  repeat split; auto.
  intros m h S Hne. rewrite B in S.
  destruct (dataJSON X (rdDNS rd)); [| discriminate].
  injection S as <-. now rewrite lookup_insert_ne.
Qed.

Lemma worker_stores_answer_witness :
  WildcardDomain (options wildRunner) <> "" /\
  QueryMultiple stubX (target stubX "a.test")
    = Some (answer "a.test" 0 ["192.0.2.1"] []) /\
  worker_body stubX wildRunner "a.test"
  = Stored (<["a.test" := "192.0.2.1"]> (hm wildRunner)).
Proof.
  split; [discriminate |]. split; [reflexivity |].
  apply (worker_stores_answer stubX wildRunner "a.test"
           (answer "a.test" 0 ["192.0.2.1"] [])
           (mkResponseData (answer "a.test" 0 ["192.0.2.1"] []) false "" None));
    try reflexivity; discriminate.
Defined.

(** X11: in JSON mode, without wildcard domain and response-type filter,
    every answer that carries a host and a timestamp and passes the
    response-code check gives exactly one output line, the serialised entry;
    the zone-transfer gate never drops it. *)
Theorem worker_json_one_line `{SL : GoStringsLib} (X : Externals) (r : Runner) (domain : string)
    (d : DNSData) :
  JSON (options r) = true ->
  WildcardDomain (options r) = "" ->
  responseTypeFilterMap (options r) = [] ->
  QueryMultiple X (target X domain) = Some d ->
  Host d <> "" ->
  TimestampIsZero d = false ->
  rcode_rejected (options r) d = false ->
  exists rd,
    enrich X r (target X domain) d = Some rd /\
    Host (rdDNS rd) = Host d /\
    worker_body X r domain = Emitted [respJSON X (OmitRaw (options r)) rd].
Proof.
  intros J W F Q H T R.
  destruct (enrich X r (target X domain) d) as [rd |] eqn:E.
  - exists rd. split; [reflexivity |].
    destruct (enrich_keeps_answer X r _ d rd E) as (EH & _).
    split; [exact EH |].
    unfold worker_body. rewrite Q, T, R, E.
    apply String.eqb_neq in H. rewrite H. cbn [orb].
    unfold dispatch. rewrite W, F, J. reflexivity.
  - exfalso. unfold enrich in E.
    destruct (axfr_stage X r (target X domain) _) eqn:A; [discriminate |].
    apply axfr_stage_spec in A as (_ & _ & _ & Jf). congruence.
Qed.
